(** * Detect Model Bias with Clarify: the notebook's orchestration code

    A shallow embedding of the code cells of
    [00_quickstart/wip/09_Detect_Model_Bias_Clarify.ipynb]:

    - the cell that polls [list_pipeline_executions] until the pipeline
      leaves the "Executing" status (the specification's [await_completion]);
    - the cell that looks up the model created by the "CreateModel" step;
    - the cells that build the Clarify configuration objects and start the
      post-training bias job (the specification's [submit]).

    The notebook's global namespace is a finite map from variable names to
    values, the external services are oracles, and every externally visible
    action is appended to a log. *)

From Stdlib Require Import String Ascii List Arith Lia Bool ZArith.
From stdpp Require Import base gmap strings list fin_maps.

Open Scope string_scope.

(** ** Data exchanged with the external services *)

(** One entry of ["PipelineExecutionSummaries"]. *)
Record ExecutionSummary := {
  PipelineExecutionStatus : string;
  PipelineExecutionArn : string
}.

(** One entry of ["PipelineExecutionSteps"].  [ModelArn] is the value of
    [execution_step["Metadata"]["Model"]["Arn"]]; it is [None] when a key on
    that path is missing. *)
Record ExecutionStep := {
  StepName : string;
  ModelArn : option string
}.

(** Python exceptions, all subclasses of [Exception].  [ValidationError] is
    the specification's configuration error. *)
Inductive exn :=
| ServiceError (diagnostic : string)
| IndexError
| KeyError (key : string)
| NameError (name : string)
| TypeError
| AttributeError (attr : string)
| ValidationError (msg : string).

(** Values bound to the notebook's global variables: strings, service
    responses, a caught exception, and imported modules and functions. *)
Inductive value :=
| VStr (s : string)
| VSummaries (l : list ExecutionSummary)
| VSteps (l : list ExecutionStep)
| VStep (st : ExecutionStep)
| VExn (e : exn)
| VModule (name : string)
| VFunction (name : string).

(** ** Clarify configuration objects *)

Inductive label_value :=
| LInt (z : Z)
| LStr (s : string).

Record DataConfig := {
  s3_data_input_path : string;
  s3_output_path : string;
  label : string;
  features : string;
  headers : list string;
  dataset_type : string
}.

Record ModelConfig := {
  model_name : string;
  instance_type : string;
  instance_count : nat;
  content_type : string;
  accept_type : string;
  content_template : string
}.

Record ModelPredictedLabelConfig := {
  predicted_label : string
}.

Record BiasConfig := {
  label_values_or_threshold : list label_value;
  facet_name : string
}.

(** The [methods] argument: the string ['all'] or a list of metric names. *)
Inductive methods_arg :=
| All
| Methods (l : list string).

(** Everything [run_post_training_bias] sends to the analysis service. *)
Record BiasAnalysisRequest := {
  data_config : DataConfig;
  data_bias_config : BiasConfig;
  model_config : ModelConfig;
  model_predicted_label_config : ModelPredictedLabelConfig;
  methods : methods_arg
}.

(** ** The external world *)

(** What one call of [sm.list_pipeline_executions(...)["PipelineExecutionSummaries"]]
    produces. *)
Inductive query_outcome :=
| Returns (l : list ExecutionSummary)
| Raises (e : exn).

(** The status-query capability: the outcome of the n-th call (from 0). *)
Definition status_service := nat -> query_outcome.

Inductive submit_outcome :=
| Accepted (job_name : string)
| Rejected (diagnostic : string).

(** The job-creation capability of the analysis service. *)
Definition bias_service := BiasAnalysisRequest -> submit_outcome.

(** Externally visible actions, in the order they happen. *)
Inductive event :=
| ListPipelineExecutions (PipelineName : string)
| Print (v : value)
| Sleep (seconds : nat)
| CreateBiasJob (req : BiasAnalysisRequest)
| WaitForJob (job_name : string) (logs : bool).

Record state := {
  globals : gmap string value;
  queries : nat;
  latest_job : option string;
  log : list event
}.

Definition fresh : state :=
  {| globals := ∅; queries := 0; latest_job := None; log := [] |}.

(** ** A state and exception monad with a fuel-bounded loop *)

Inductive result (A : Type) :=
| Ok (a : A) (s : state)
| Raised (e : exn) (s : state)
| Timeout (s : state).

Arguments Ok {A} a s.
Arguments Raised {A} e s.
Arguments Timeout {A} s.

Definition M (A : Type) : Type := state -> result A.

Definition ret {A} (a : A) : M A := fun s => Ok a s.

Definition bind {A B} (m : M A) (k : A -> M B) : M B :=
  fun s =>
    match m s with
    | Ok a s' => k a s'
    | Raised e s' => Raised e s'
    | Timeout s' => Timeout s'
    end.

Definition raise {A} (e : exn) : M A := fun s => Raised e s.

Definition timeout {A} : M A := fun s => Timeout s.

(** [try: body except Exception: handler].  The writes the body made before
    it raised stay in place. *)
Definition try_except {A} (body : M A) (handler : exn -> M A) : M A :=
  fun s =>
    match body s with
    | Raised e s' => handler e s'
    | r => r
    end.

Declare Scope py_scope.
Delimit Scope py_scope with py.
Notation "x <- c1 ;; c2" := (bind c1 (fun x => c2))
  (at level 100, c1 at next level, c2 at level 200, right associativity) : py_scope.
Notation "c1 ;; c2" := (bind c1 (fun _ => c2))
  (at level 100, c2 at level 200, right associativity) : py_scope.
Open Scope py_scope.

Definition final_state {A} (r : result A) : state :=
  match r with
  | Ok _ s => s
  | Raised _ s => s
  | Timeout s => s
  end.

Definition get_var (x : string) : M value :=
  fun s =>
    match globals s !! x with
    | Some v => Ok v s
    | None => Raised (NameError x) s
    end.

Definition set_var (x : string) (v : value) : M unit :=
  fun s =>
    Ok tt {| globals := <[x := v]> (globals s); queries := queries s;
             latest_job := latest_job s; log := log s |}.

(** [del x] for a variable that is bound. *)
Definition del_var (x : string) : M unit :=
  fun s =>
    Ok tt {| globals := delete x (globals s); queries := queries s;
             latest_job := latest_job s; log := log s |}.

Definition emit (e : event) : M unit :=
  fun s =>
    Ok tt {| globals := globals s; queries := queries s;
             latest_job := latest_job s; log := log s ++ [e] |}.

Definition print (v : value) : M unit := emit (Print v).

Definition sleep (seconds : nat) : M unit := emit (Sleep seconds).

(** ** The polling cell *)

Section Poller.

Variable svc : status_service.
Variable pipeline_name : string.

(** [sm.list_pipeline_executions(PipelineName=pipeline_name)["PipelineExecutionSummaries"]] *)
Definition list_pipeline_executions : M (list ExecutionSummary) :=
  fun s =>
    let s' := {| globals := globals s; queries := S (queries s);
                 latest_job := latest_job s;
                 log := log s ++ [ListPipelineExecutions pipeline_name] |} in
    match svc (queries s) with
    | Returns l => Ok l s'
    | Raises e => Raised e s'
    end.

(** [executions_response[0]["PipelineExecutionStatus"]] *)
Definition first_status : M string :=
  v <- get_var "executions_response";;
  match v with
  | VSummaries (x :: _) => ret (PipelineExecutionStatus x)
  | VSummaries [] => raise IndexError
  | _ => raise TypeError
  end.

(** The two assignments that occur before the loop and again in its body. *)
Definition query_status : M unit :=
  r <- list_pipeline_executions;;
  set_var "executions_response" (VSummaries r);;
  st <- first_status;;
  set_var "pipeline_execution_status" (VStr st).

(** [pipeline_execution_status == "Executing"] *)
Definition status_is_executing : M bool :=
  v <- get_var "pipeline_execution_status";;
  ret (match v with
       | VStr st => String.eqb st "Executing"
       | _ => false
       end).

(** The body of the loop.  [except Exception as e] binds the global [e]
    to the exception for the time of the handler and deletes it when the
    handler is left. *)
Definition poll_body : M unit :=
  try_except query_status
    (fun e =>
       set_var "e" (VExn e);;
       print (VStr "Please wait...");;
       sleep 30;;
       del_var "e").

(** The [while] loop; [fuel] bounds the number of iterations. *)
Fixpoint poll_loop (fuel : nat) : M unit :=
  b <- status_is_executing;;
  if b : bool then
    match fuel with
    | 0 => timeout
    | S f => poll_body;; poll_loop f
    end
  else ret tt.

Definition await_completion (fuel : nat) : M unit :=
  query_status;;
  st <- get_var "pipeline_execution_status";;
  print st;;
  poll_loop fuel;;
  r <- get_var "executions_response";;
  print r.

(** The whole cell: its two imports, then the query and the loop. *)
Definition polling_cell (fuel : nat) : M unit :=
  set_var "time" (VModule "time");;
  set_var "pprint" (VFunction "pprint.pprint");;
  await_completion fuel.

End Poller.

(** What the caller reads back after the cell has run. *)
Definition terminal_status (s : state) : option value :=
  globals s !! "pipeline_execution_status".

Definition last_response (s : state) : option value :=
  globals s !! "executions_response".

(** The status carried by the first summary of a query outcome. *)
Definition outcome_status (o : query_outcome) : option string :=
  match o with
  | Returns (x :: _) => Some (PipelineExecutionStatus x)
  | _ => None
  end.

(** An in-loop query outcome after which the loop goes round again: a
    raised exception, an empty list, or a first summary still "Executing". *)
Definition keeps_polling (o : query_outcome) : bool :=
  match outcome_status o with
  | Some st => String.eqb st "Executing"
  | None => true
  end.

(** Actions of the polling cell: queries and local output or waiting. *)
Definition read_only (e : event) : bool :=
  match e with
  | ListPipelineExecutions _ | Print _ | Sleep _ => true
  | CreateBiasJob _ | WaitForJob _ _ => false
  end.

Definition is_query (e : event) : bool :=
  match e with
  | ListPipelineExecutions _ => true
  | _ => false
  end.



Definition count_events (p : event -> bool) (l : list event) : nat :=
  length (List.filter p l).

(** A status service that replays a fixed script and fails afterwards. *)
Definition script (l : list query_outcome) : status_service :=
  fun n => nth n l (Raises (ServiceError "script exhausted")).

Definition summary (st : string) : ExecutionSummary :=
  {| PipelineExecutionStatus := st;
     PipelineExecutionArn := "arn:aws:sagemaker:us-east-1:000000000000:pipeline/p/execution/e1" |}.

(** ** The model lookup cell *)

(** [s.split(sep)] for a one-character separator. *)
Fixpoint split (sep : ascii) (s : string) : list string :=
  match s with
  | EmptyString => [EmptyString]
  | String c rest =>
      if Ascii.eqb c sep then EmptyString :: split sep rest
      else match split sep rest with
           | x :: xs => String c x :: xs
           | [] => [String c EmptyString]
           end
  end.

(** The [for ... if ... break] scan over the execution steps. *)
Fixpoint scan_steps (l : list ExecutionStep) : M unit :=
  match l with
  | [] => ret tt
  | execution_step :: rest =>
      set_var "execution_step" (VStep execution_step);;
      if String.eqb (StepName execution_step) "CreateModel" then
        match ModelArn execution_step with
        | Some arn => set_var "model_arn" (VStr arn)
        | None => raise (KeyError "Metadata")
        end
      else scan_steps rest
  end.

Definition view_created_model : M unit :=
  v <- get_var "steps";;
  match v with
  | VSteps l =>
      scan_steps l;;
      model_arn <- get_var "model_arn";;
      print model_arn;;
      match model_arn with
      | VStr arn =>
          set_var "pipeline_model_name" (VStr (List.last (split "/"%char arn) EmptyString));;
          print (VStr (List.last (split "/"%char arn) EmptyString))
      | _ => raise (AttributeError "split")
      end
  | _ => raise TypeError
  end.

Definition named_create_model (st : ExecutionStep) : bool :=
  String.eqb (StepName st) "CreateModel".

(** ** Building and submitting the bias analysis *)

(** The keyword arguments of [run_post_training_bias] that describe the
    analysis. *)
Definition request (dc : DataConfig) (bc : BiasConfig) (mc : ModelConfig)
    (pc : ModelPredictedLabelConfig) (ms : methods_arg) : BiasAnalysisRequest :=
  {| data_config := dc; data_bias_config := bc; model_config := mc;
     model_predicted_label_config := pc; methods := ms |}.

Section Builder.

Variable service : bias_service.

(** Modelled from the spec: the SDK method [run_post_training_bias] and the
    submission service behind it, which the notebook calls and whose code
    is not among the sources.  Following section 6, the service accepts a
    structured request and returns a job name, or rejects the request with
    a diagnostic; the processor remembers the job it started and blocks on
    it only when [wait] is set.  The configuration errors that precede the
    call are the validation step [checked_submit] below. *)
Definition run_post_training_bias (dc : DataConfig) (bc : BiasConfig)
    (mc : ModelConfig) (pc : ModelPredictedLabelConfig) (ms : methods_arg)
    (wait logs : bool) : M unit :=
  emit (CreateBiasJob (request dc bc mc pc ms));;
  match service (request dc bc mc pc ms) with
  | Rejected diagnostic => raise (ServiceError diagnostic)
  | Accepted job_name =>
      (fun s => Ok tt {| globals := globals s; queries := queries s;
                         latest_job := Some job_name; log := log s |});;
      if wait then emit (WaitForJob job_name logs) else ret tt
  end.

(** [clarify_processor.latest_job.job_name] *)
Definition latest_job_name : M string :=
  fun s =>
    match latest_job s with
    | Some job_name => Ok job_name s
    | None => Raised (AttributeError "job_name") s
    end.

(** The "Run Clarify Job" cell followed by the cell reading the job name. *)
Definition submit (dc : DataConfig) (bc : BiasConfig) (mc : ModelConfig)
    (pc : ModelPredictedLabelConfig) (ms : methods_arg) : M string :=
  run_post_training_bias dc bc mc pc ms false false;;
  job_name <- latest_job_name;;
  set_var "run_post_training_bias_processing_job_name" (VStr job_name);;
  ret job_name.

End Builder.

(** The configuration objects exactly as the notebook writes them. *)
Definition dquote : string := String (ascii_of_nat 34) EmptyString.

Definition bias_report_prefix (pipeline_model_name : string) : string :=
  "bias/report-" ++ pipeline_model_name.

Definition bias_report_output_path (bucket pipeline_model_name : string) : string :=
  "s3://" ++ bucket ++ "/" ++ bias_report_prefix pipeline_model_name.

Definition notebook_data_config (test_data_bias_s3_uri output_path : string) : DataConfig :=
  {| s3_data_input_path := test_data_bias_s3_uri;
     s3_output_path := output_path;
     label := "star_rating";
     features := "features";
     headers := ["review_body"; "product_category"; "star_rating"];
     dataset_type := "application/jsonlines" |}.

Definition notebook_model_config (pipeline_model_name : string) : ModelConfig :=
  {| model_name := pipeline_model_name;
     instance_type := "ml.m5.4xlarge";
     instance_count := 1;
     content_type := "application/jsonlines";
     accept_type := "application/jsonlines";
     content_template := "{" ++ dquote ++ "features" ++ dquote ++ ":$features}" |}.

Definition notebook_predictions_config : ModelPredictedLabelConfig :=
  {| predicted_label := "predicted_label" |}.

Definition notebook_bias_config : BiasConfig :=
  {| label_values_or_threshold := [LInt 5; LInt 4];
     facet_name := "product_category" |}.

Definition notebook_methods : methods_arg :=
  Methods ["DPPL"; "DI"; "DCA"; "DCR"; "RD"; "DAR"; "DRR"; "AD"; "TE"].


(** *** The structural conditions the specification puts on a request *)








(** ** The validation step of the specification's [submit] *)



Section Validation.

(** The enumerated set of supported dataset formats, which the
    specification does not list, and the order in which the model consumes
    the feature columns. *)
Variable supported_formats : list string.
Variable order : list string.






Variable service : bias_service.


End Validation.




(** ** Frame of the polling cell *)

(** [s'] differs from [s] only by read-only actions appended to the log,
    by as many answered queries as the log gained query actions, by the two
    variables the cell assigns, and by the handler's variable [e], which is
    either untouched or no longer bound. *)
Definition poll_frame (s s' : state) : Prop :=
  (exists t, log s' = (log s ++ t)%list /\ forallb read_only t = true /\
             queries s' = queries s + count_events is_query t) /\
  (forall x, x <> "executions_response" -> x <> "pipeline_execution_status" ->
             x <> "e" -> globals s' !! x = globals s !! x) /\
  (globals s' !! "e" = globals s !! "e" \/ globals s' !! "e" = None) /\
  latest_job s' = latest_job s.

Definition framed {A} (m : M A) : Prop :=
  forall s, poll_frame s (final_state (m s)).

Definition returned {A} (r : result A) : bool :=
  match r with
  | Ok _ _ => true
  | _ => false
  end.

(** ** Scripted services and states used in the examples *)

Definition pending_then_succeeded : status_service :=
  script [Returns [summary "Pending"]; Returns [summary "Succeeded"]].

Definition executing_then_stopped : status_service :=
  script [Returns [summary "Executing"]; Returns [summary "Stopped"]].

Definition running_running_succeeded : status_service :=
  script [Returns [summary "Executing"]; Returns [summary "Executing"];
          Returns [summary "Succeeded"]].

Definition transient_twice_then_failed : status_service :=
  script [Raises (ServiceError "ThrottlingException");
          Raises (ServiceError "ThrottlingException");
          Returns [summary "Failed"]].

Definition executing_transient_twice_then_failed : status_service :=
  script [Returns [summary "Executing"];
          Raises (ServiceError "ThrottlingException");
          Raises (ServiceError "ThrottlingException");
          Returns [summary "Failed"]].

Definition executing_empty_succeeded : status_service :=
  script [Returns [summary "Executing"]; Returns []; Returns [summary "Succeeded"]].

Definition no_executions : status_service :=
  script [Returns []].

(** A notebook in which [e] holds a value from earlier work. *)
Definition with_bound_e : state :=
  {| globals := <["e" := VStr "kept"]> ∅;
     queries := 0; latest_job := None; log := [] |}.

(** A notebook in which an earlier run left the status at "Executing". *)
Definition mid_poll : state :=
  {| globals := <["pipeline_execution_status" := VStr "Executing"]> ∅;
     queries := 0; latest_job := None; log := [] |}.

(** ** Inputs used in the examples of the lookup and of the builder *)

Definition train_step : ExecutionStep :=
  {| StepName := "Train"; ModelArn := None |}.

Definition create_model_step : ExecutionStep :=
  {| StepName := "CreateModel";
     ModelArn := Some "arn:aws:sagemaker:us-east-1:000000000000:model/pipelinemodel-abc" |}.

Definition register_model_step : ExecutionStep :=
  {| StepName := "RegisterModel";
     ModelArn := Some "arn:aws:sagemaker:us-east-1:000000000000:model/other" |}.

Definition with_steps (l : list ExecutionStep) : state :=
  {| globals := <["steps" := VSteps l]> ∅;
     queries := 0; latest_job := None; log := [] |}.






(** ** The cells that read the polled response back *)

(** [pipeline_execution_status = executions_response[0]["PipelineExecutionStatus"]]
    followed by [print(pipeline_execution_status)]. *)
Definition read_execution_status : M unit :=
  st <- first_status;;
  set_var "pipeline_execution_status" (VStr st);;
  v <- get_var "pipeline_execution_status";;
  print v.

(** [executions_response[0]["PipelineExecutionArn"]] *)
Definition first_arn : M string :=
  v <- get_var "executions_response";;
  match v with
  | VSummaries (x :: _) => ret (PipelineExecutionArn x)
  | VSummaries [] => raise IndexError
  | _ => raise TypeError
  end.

(** [pipeline_execution_arn = executions_response[0]["PipelineExecutionArn"]]
    followed by [print(pipeline_execution_arn)]. *)
Definition read_execution_arn : M unit :=
  arn <- first_arn;;
  set_var "pipeline_execution_arn" (VStr arn);;
  v <- get_var "pipeline_execution_arn";;
  print v.

(** The state the loop maintains: the status variable holds a string, the
    response variable is bound, and once the status has left "Executing"
    the response is a non-empty list whose first summary carries it. *)
Definition poll_invariant (s : state) : Prop :=
  is_Some (last_response s) /\
  exists st, terminal_status s = Some (VStr st) /\
             (st <> "Executing" ->
              exists x l, last_response s = Some (VSummaries (x :: l)) /\
                          PipelineExecutionStatus x = st).

Definition is_sleep (e : event) : bool :=
  match e with
  | Sleep _ => true
  | _ => false
  end.

(** A query answer that makes the loop body raise: an exception or an
    empty list. *)
Definition fails_in_loop (o : query_outcome) : bool :=
  match o with
  | Returns (_ :: _) => false
  | _ => true
  end.

(** How many of the [n] answers from index [from] on fail in the loop. *)
Fixpoint count_failed (svc : status_service) (from n : nat) : nat :=
  match n with
  | 0 => 0
  | S m => (if fails_in_loop (svc from) then 1 else 0) + count_failed svc (S from) m
  end.

(** ** Strings *)

(** [sep.join(l)] *)
Fixpoint join (sep : string) (l : list string) : string :=
  match l with
  | [] => EmptyString
  | [x] => x
  | x :: rest => x ++ sep ++ join sep rest
  end.

Fixpoint has_char (c : ascii) (s : string) : bool :=
  match s with
  | EmptyString => false
  | String c' rest => Ascii.eqb c' c || has_char c rest
  end.

(** ** From the model lookup to the submission *)

Section Analysis.

Variable service : bias_service.
Variable bucket : string.
Variable test_data_bias_s3_uri : string.

(** The cells from "View Created Model" to the read-back of the job name,
    run in notebook order; [pipeline_model_name] is the string the lookup
    cell has just bound. *)
Definition run_bias_analysis : M string :=
  view_created_model;;
  v <- get_var "pipeline_model_name";;
  match v with
  | VStr pipeline_model_name =>
      submit service
        (notebook_data_config test_data_bias_s3_uri
           (bias_report_output_path bucket pipeline_model_name))
        notebook_bias_config
        (notebook_model_config pipeline_model_name)
        notebook_predictions_config
        notebook_methods
  | _ => raise TypeError
  end.

End Analysis.

(** ** More inputs for examples *)

Definition broken_create_model_step : ExecutionStep :=
  {| StepName := "CreateModel"; ModelArn := None |}.

Definition with_steps_and_model (l : list ExecutionStep) (arn : string) : state :=
  {| globals := <["model_arn" := VStr arn]> (<["steps" := VSteps l]> ∅);
     queries := 0; latest_job := None; log := [] |}.

(** An analysis service that accepts a request only when it asks for the
    notebook's metrics, and names the job after the model. *)
Definition accept_notebook_methods : bias_service :=
  fun req =>
    match methods req with
    | Methods ["DPPL"; "DI"; "DCA"; "DCR"; "RD"; "DAR"; "DRR"; "AD"; "TE"] =>
        Accepted ("Clarify-Posttraining-Bias-" ++ model_name (model_config req))
    | _ => Rejected "ValidationException"
    end.

(** * Properties *)

Open Scope list_scope.

(** ** One status query *)

Lemma query_status_returns svc name s x l :
  svc (queries s) = Returns (x :: l) ->
  query_status svc name s =
    Ok tt {| globals := <["pipeline_execution_status" := VStr (PipelineExecutionStatus x)]>
                          (<["executions_response" := VSummaries (x :: l)]> (globals s));
             queries := S (queries s);
             latest_job := latest_job s;
             log := log s ++ [ListPipelineExecutions name] |}.
Proof.
  intros H. unfold query_status, bind, list_pipeline_executions.
  rewrite H. simpl. unfold first_status, bind, get_var. simpl.
  rewrite lookup_insert_eq. reflexivity.
Qed.

Lemma query_status_empty svc name s :
  svc (queries s) = Returns [] ->
  query_status svc name s =
    Raised IndexError
      {| globals := <["executions_response" := VSummaries []]> (globals s);
         queries := S (queries s);
         latest_job := latest_job s;
         log := log s ++ [ListPipelineExecutions name] |}.
Proof.
  intros H. unfold query_status, bind, list_pipeline_executions.
  rewrite H. simpl. unfold first_status, bind, get_var. simpl.
  rewrite lookup_insert_eq. reflexivity.
Qed.

Lemma query_status_raises svc name s e :
  svc (queries s) = Raises e ->
  query_status svc name s =
    Raised e
      {| globals := globals s;
         queries := S (queries s);
         latest_job := latest_job s;
         log := log s ++ [ListPipelineExecutions name] |}.
Proof.
  intros H. unfold query_status, bind, list_pipeline_executions.
  rewrite H. reflexivity.
Qed.

(** ** One iteration of the loop *)

Lemma poll_body_returns svc name s x l :
  svc (queries s) = Returns (x :: l) ->
  poll_body svc name s =
    Ok tt {| globals := <["pipeline_execution_status" := VStr (PipelineExecutionStatus x)]>
                          (<["executions_response" := VSummaries (x :: l)]> (globals s));
             queries := S (queries s);
             latest_job := latest_job s;
             log := log s ++ [ListPipelineExecutions name] |}.
Proof.
  intros H. unfold poll_body, try_except.
  rewrite (query_status_returns _ _ _ _ _ H). reflexivity.
Qed.

Lemma poll_body_empty svc name s :
  svc (queries s) = Returns [] ->
  poll_body svc name s =
    Ok tt {| globals := delete "e" (<["executions_response" := VSummaries []]> (globals s));
             queries := S (queries s);
             latest_job := latest_job s;
             log := log s ++ [ListPipelineExecutions name;
                              Print (VStr "Please wait..."); Sleep 30] |}.
Proof.
  intros H. unfold poll_body, try_except.
  rewrite (query_status_empty _ _ _ H).
  unfold bind, print, sleep, emit, set_var, del_var. simpl.
  rewrite delete_insert_eq, <- !app_assoc. reflexivity.
Qed.

Lemma poll_body_raises svc name s e :
  svc (queries s) = Raises e ->
  poll_body svc name s =
    Ok tt {| globals := delete "e" (globals s);
             queries := S (queries s);
             latest_job := latest_job s;
             log := log s ++ [ListPipelineExecutions name;
                              Print (VStr "Please wait..."); Sleep 30] |}.
Proof.
  intros H. unfold poll_body, try_except.
  rewrite (query_status_raises _ _ _ _ H).
  unfold bind, print, sleep, emit, set_var, del_var. simpl.
  rewrite delete_insert_eq, <- !app_assoc. reflexivity.
Qed.

(** ** The loop *)

Lemma status_is_executing_str s st :
  terminal_status s = Some (VStr st) ->
  status_is_executing s = Ok (String.eqb st "Executing") s.
Proof.
  unfold terminal_status, status_is_executing, bind, get_var.
  intros ->. reflexivity.
Qed.

Lemma poll_loop_exit svc name fuel s st :
  terminal_status s = Some (VStr st) ->
  st <> "Executing" ->
  poll_loop svc name fuel s = Ok tt s.
Proof.
  intros Hs Hne.
  assert (E : String.eqb st "Executing" = false) by (apply String.eqb_neq; exact Hne).
  destruct fuel; simpl; unfold bind;
    rewrite (status_is_executing_str _ _ Hs), E; reflexivity.
Qed.

Lemma poll_loop_unfold svc name fuel s :
  terminal_status s = Some (VStr "Executing") ->
  poll_loop svc name (S fuel) s =
    (poll_body svc name;; poll_loop svc name fuel) s.
Proof.
  intros Hs. simpl. unfold bind at 1.
  rewrite (status_is_executing_str _ _ Hs). reflexivity.
Qed.

Lemma poll_loop_out_of_fuel svc name s :
  terminal_status s = Some (VStr "Executing") ->
  poll_loop svc name 0 s = Timeout s.
Proof.
  intros Hs. simpl. unfold bind.
  rewrite (status_is_executing_str _ _ Hs). reflexivity.
Qed.

Lemma poll_body_keeps svc name s :
  terminal_status s = Some (VStr "Executing") ->
  keeps_polling (svc (queries s)) = true ->
  exists s', poll_body svc name s = Ok tt s' /\
             terminal_status s' = Some (VStr "Executing") /\
             queries s' = S (queries s).
Proof.
  intros Hs Hk. destruct (svc (queries s)) as [[|x l]|e] eqn:E.
  - eexists. split; [apply poll_body_empty; exact E|].
    split; [|reflexivity].
    unfold terminal_status. simpl.
    rewrite lookup_delete_ne; [|discriminate].
    rewrite lookup_insert_ne; [exact Hs | discriminate].
  - eexists. split; [apply (poll_body_returns _ _ _ _ _ E)|].
    split; [|reflexivity].
    unfold terminal_status. simpl. rewrite lookup_insert_eq.
    unfold keeps_polling in Hk. simpl in Hk.
    apply String.eqb_eq in Hk. rewrite Hk. reflexivity.
  - eexists. split; [apply (poll_body_raises _ _ _ _ E)|].
    split; [|reflexivity].
    unfold terminal_status. simpl.
    rewrite lookup_delete_ne; [exact Hs | discriminate].
Qed.

Lemma poll_loop_run svc name x l : forall n fuel s,
  terminal_status s = Some (VStr "Executing") ->
  (forall i, i < n -> keeps_polling (svc (queries s + i)) = true) ->
  svc (queries s + n) = Returns (x :: l) ->
  PipelineExecutionStatus x <> "Executing" ->
  n < fuel ->
  exists s', poll_loop svc name fuel s = Ok tt s' /\
             queries s' = queries s + n + 1 /\
             terminal_status s' = Some (VStr (PipelineExecutionStatus x)) /\
             last_response s' = Some (VSummaries (x :: l)).
Proof.
  induction n as [|n IH]; intros fuel s Hs Hk Hx Hne Hf.
  - destruct fuel as [|fuel]; [lia|].
    rewrite Nat.add_0_r in Hx.
    rewrite (poll_loop_unfold _ _ _ _ Hs). unfold bind.
    rewrite (poll_body_returns _ _ _ _ _ Hx).
    eexists. split.
    + apply (poll_loop_exit _ _ _ _ (PipelineExecutionStatus x)); [|exact Hne].
      unfold terminal_status. simpl. apply lookup_insert_eq.
    + simpl. split; [lia|]. split.
      * unfold terminal_status. simpl. apply lookup_insert_eq.
      * unfold last_response. simpl.
        rewrite lookup_insert_ne; [apply lookup_insert_eq | discriminate].
  - destruct fuel as [|fuel]; [lia|].
    rewrite (poll_loop_unfold _ _ _ _ Hs). unfold bind.
    destruct (poll_body_keeps svc name s Hs) as (s1 & E1 & Hs1 & Hq1).
    { rewrite <- (Nat.add_0_r (queries s)). apply Hk. lia. }
    rewrite E1.
    destruct (IH fuel s1 Hs1) as (s' & E' & Hq' & Ht' & Hl').
    + intros i Hi. rewrite Hq1.
      replace (S (queries s) + i) with (queries s + S i) by lia.
      apply Hk. lia.
    + rewrite Hq1. replace (S (queries s) + n) with (queries s + S n) by lia.
      exact Hx.
    + exact Hne.
    + lia.
    + exists s'. split; [exact E'|]. split; [lia|]. split; assumption.
Qed.

(** While every answer keeps the status at "Executing" the loop never
    exits: it is still running when the fuel is used up, one query per
    iteration. *)
Lemma poll_loop_still_running svc name : forall fuel s,
  terminal_status s = Some (VStr "Executing") ->
  (forall i, i < fuel -> keeps_polling (svc (queries s + i)) = true) ->
  exists s', poll_loop svc name fuel s = Timeout s' /\
             queries s' = queries s + fuel /\
             terminal_status s' = Some (VStr "Executing").
Proof.
  induction fuel as [|fuel IH]; intros s Hs Hk.
  - exists s. split; [apply poll_loop_out_of_fuel; exact Hs|]. split; [lia | exact Hs].
  - rewrite (poll_loop_unfold _ _ _ _ Hs). unfold bind.
    destruct (poll_body_keeps svc name s Hs) as (s1 & E1 & Hs1 & Hq1).
    { rewrite <- (Nat.add_0_r (queries s)). apply Hk. lia. }
    rewrite E1.
    destruct (IH s1 Hs1) as (s' & E' & Hq' & Ht').
    + intros i Hi. rewrite Hq1.
      replace (S (queries s) + i) with (queries s + S i) by lia.
      apply Hk. lia.
    + exists s'. split; [exact E'|]. split; [lia | exact Ht'].
Qed.

(** ** The whole cell *)

Lemma await_completion_start svc name fuel s x l :
  svc (queries s) = Returns (x :: l) ->
  await_completion svc name fuel s =
    (poll_loop svc name fuel;; r <- get_var "executions_response";; print r)
      {| globals := <["pipeline_execution_status" := VStr (PipelineExecutionStatus x)]>
                      (<["executions_response" := VSummaries (x :: l)]> (globals s));
         queries := S (queries s);
         latest_job := latest_job s;
         log := log s ++ [ListPipelineExecutions name;
                          Print (VStr (PipelineExecutionStatus x))] |}.
Proof.
  intros H. unfold await_completion. unfold bind at 1.
  rewrite (query_status_returns _ _ _ _ _ H).
  unfold bind at 1. unfold get_var at 1. simpl.
  rewrite lookup_insert_eq.
  unfold bind at 1. unfold print, emit. simpl.
  rewrite <- app_assoc. reflexivity.
Qed.

Lemma await_completion_finish (loop : M unit) s s' v :
  loop s = Ok tt s' ->
  last_response s' = Some v ->
  (loop;; r <- get_var "executions_response";; print r) s =
    Ok tt {| globals := globals s'; queries := queries s';
             latest_job := latest_job s'; log := log s' ++ [Print v] |}.
Proof.
  unfold last_response. intros E Hv. unfold bind, get_var.
  rewrite E, Hv. reflexivity.
Qed.

Lemma await_completion_immediate svc name fuel s x l :
  svc (queries s) = Returns (x :: l) ->
  PipelineExecutionStatus x <> "Executing" ->
  exists s', await_completion svc name fuel s = Ok tt s' /\
             queries s' = queries s + 1 /\
             terminal_status s' = Some (VStr (PipelineExecutionStatus x)) /\
             last_response s' = Some (VSummaries (x :: l)).
Proof.
  intros H Hne. rewrite (await_completion_start _ _ _ _ _ _ H).
  eexists. split.
  - apply await_completion_finish.
    + apply (poll_loop_exit _ _ _ _ (PipelineExecutionStatus x)); [|exact Hne].
      unfold terminal_status. simpl. apply lookup_insert_eq.
    + unfold last_response. simpl.
      rewrite lookup_insert_ne; [apply lookup_insert_eq | discriminate].
  - simpl. split; [lia|]. split.
    + unfold terminal_status. simpl. apply lookup_insert_eq.
    + unfold last_response. simpl.
      rewrite lookup_insert_ne; [apply lookup_insert_eq | discriminate].
Qed.

Lemma await_completion_run svc name fuel s x0 l0 x l n :
  svc (queries s) = Returns (x0 :: l0) ->
  PipelineExecutionStatus x0 = "Executing" ->
  (forall i, i < n -> keeps_polling (svc (S (queries s) + i)) = true) ->
  svc (S (queries s) + n) = Returns (x :: l) ->
  PipelineExecutionStatus x <> "Executing" ->
  n < fuel ->
  exists s', await_completion svc name fuel s = Ok tt s' /\
             queries s' = queries s + n + 2 /\
             terminal_status s' = Some (VStr (PipelineExecutionStatus x)) /\
             last_response s' = Some (VSummaries (x :: l)).
Proof.
  intros H0 Hx0 Hk Hx Hne Hf.
  rewrite (await_completion_start _ _ _ _ _ _ H0).
  match goal with |- context [bind _ _ ?s1] => set (s1' := s1) end.
  destruct (poll_loop_run svc name x l n fuel s1') as (s' & E' & Hq' & Ht' & Hl');
    try assumption.
  - unfold terminal_status, s1'. simpl. rewrite lookup_insert_eq, Hx0. reflexivity.
  - eexists. split; [apply (await_completion_finish _ _ _ _ E' Hl')|].
    simpl. split; [rewrite Hq'; unfold s1'; simpl; lia|]. split; assumption.
Qed.

(** ** The frame is preserved by every construct of the cell *)

Lemma count_events_app p (t1 t2 : list event) :
  count_events p (t1 ++ t2) = count_events p t1 + count_events p t2.
Proof.
  unfold count_events. rewrite List.filter_app, length_app. reflexivity.
Qed.

Lemma poll_frame_refl s : poll_frame s s.
Proof.
  split; [|split; [intros; reflexivity | split; [left; reflexivity | reflexivity]]].
  exists []. rewrite app_nil_r. simpl. repeat split. unfold count_events. simpl. lia.
Qed.

Lemma poll_frame_trans s1 s2 s3 :
  poll_frame s1 s2 -> poll_frame s2 s3 -> poll_frame s1 s3.
Proof.
  intros [(t1 & L1 & R1 & Q1) [G1 [E1 J1]]] [(t2 & L2 & R2 & Q2) [G2 [E2 J2]]].
  split; [|split; [|split]].
  - exists (t1 ++ t2). rewrite L2, L1, <- app_assoc. split; [reflexivity|].
    rewrite forallb_app, R1, R2, count_events_app. split; [reflexivity | lia].
  - intros x H1 H2 H3. rewrite (G2 x H1 H2 H3). apply (G1 x H1 H2 H3).
  - destruct E2 as [E2|E2]; [|right; exact E2].
    rewrite E2. exact E1.
  - congruence.
Qed.

Lemma framed_ret {A} (a : A) : framed (ret a).
Proof. intros s. apply poll_frame_refl. Qed.

Lemma framed_raise {A} e : framed (@raise A e).
Proof. intros s. apply poll_frame_refl. Qed.

Lemma framed_timeout {A} : framed (@timeout A).
Proof. intros s. apply poll_frame_refl. Qed.

Lemma framed_get_var x : framed (get_var x).
Proof.
  intros s. unfold get_var. destruct (globals s !! x); apply poll_frame_refl.
Qed.

Lemma framed_bind {A B} (m : M A) (k : A -> M B) :
  framed m -> (forall a, framed (k a)) -> framed (bind m k).
Proof.
  intros Hm Hk s. unfold bind. specialize (Hm s).
  destruct (m s) as [a s'|e s'|s']; simpl in *; try exact Hm.
  eapply poll_frame_trans; [exact Hm | apply Hk].
Qed.

Lemma framed_try_except {A} (body : M A) (handler : exn -> M A) :
  framed body -> (forall e, framed (handler e)) -> framed (try_except body handler).
Proof.
  intros Hb Hh s. unfold try_except. specialize (Hb s).
  destruct (body s) as [a s'|e s'|s']; simpl in *; try exact Hb.
  eapply poll_frame_trans; [exact Hb | apply Hh].
Qed.

Lemma framed_set_var x v :
  x = "executions_response" \/ x = "pipeline_execution_status" ->
  framed (set_var x v).
Proof.
  intros Hx s. unfold set_var. simpl. split; [|split; [|split; [|reflexivity]]].
  - exists []. rewrite app_nil_r. simpl. repeat split. unfold count_events. simpl. lia.
  - intros y H1 H2 H3. simpl. apply lookup_insert_ne. destruct Hx; congruence.
  - left. simpl. apply lookup_insert_ne. destruct Hx; subst x; discriminate.
Qed.

Lemma framed_emit e :
  read_only e = true -> is_query e = false -> framed (emit e).
Proof.
  intros He Hq s. unfold emit. simpl.
  split; [|split; [intros; reflexivity | split; [left; reflexivity | reflexivity]]].
  exists [e]. simpl. rewrite He. repeat split.
  unfold count_events. simpl. rewrite Hq. simpl. lia.
Qed.

Lemma framed_handler e :
  framed (set_var "e" (VExn e);; print (VStr "Please wait...");; sleep 30;; del_var "e").
Proof.
  intros s. unfold bind, set_var, print, sleep, emit, del_var. simpl.
  split; [|split; [|split; [|reflexivity]]].
  - exists [Print (VStr "Please wait..."); Sleep 30]. simpl.
    rewrite <- app_assoc. repeat split. unfold count_events. simpl. lia.
  - intros x _ _ Hx. simpl.
    rewrite lookup_delete_ne; [|congruence]. apply lookup_insert_ne. congruence.
  - right. simpl. apply lookup_delete_eq.
Qed.

Lemma framed_list_pipeline_executions svc name :
  framed (list_pipeline_executions svc name).
Proof.
  intros s. unfold list_pipeline_executions.
  assert (F : poll_frame s
                {| globals := globals s; queries := S (queries s);
                   latest_job := latest_job s;
                   log := log s ++ [ListPipelineExecutions name] |}).
  { split; [|split; [intros; reflexivity | split; [left; reflexivity | reflexivity]]].
    exists [ListPipelineExecutions name]. simpl. repeat split.
    unfold count_events. simpl. lia. }
  destruct (svc (queries s)); exact F.
Qed.

Lemma framed_query_status svc name : framed (query_status svc name).
Proof.
  unfold query_status.
  apply framed_bind; [apply framed_list_pipeline_executions|]. intros r.
  apply framed_bind; [apply framed_set_var; left; reflexivity|]. intros _.
  apply framed_bind.
  - unfold first_status. apply framed_bind; [apply framed_get_var|].
    intros v. destruct v as [st|[|x l]|l|st|e|m|f];
      first [apply framed_ret | apply framed_raise].
  - intros st. apply framed_set_var. right. reflexivity.
Qed.

Lemma framed_poll_body svc name : framed (poll_body svc name).
Proof.
  unfold poll_body. apply framed_try_except; [apply framed_query_status|].
  intros e. apply framed_handler.
Qed.

Lemma framed_poll_loop svc name fuel : framed (poll_loop svc name fuel).
Proof.
  induction fuel as [|fuel IH]; simpl.
  - apply framed_bind.
    + unfold status_is_executing. apply framed_bind; [apply framed_get_var|].
      intros v. apply framed_ret.
    + intros [|]; [apply framed_timeout | apply framed_ret].
  - apply framed_bind.
    + unfold status_is_executing. apply framed_bind; [apply framed_get_var|].
      intros v. apply framed_ret.
    + intros [|]; [|apply framed_ret].
      apply framed_bind; [apply framed_poll_body | intros _; exact IH].
Qed.

Lemma framed_await_completion svc name fuel : framed (await_completion svc name fuel).
Proof.
  unfold await_completion.
  apply framed_bind; [apply framed_query_status|]. intros _.
  apply framed_bind; [apply framed_get_var|]. intros st.
  apply framed_bind; [apply framed_emit; reflexivity|]. intros _.
  apply framed_bind; [apply framed_poll_loop|]. intros _.
  apply framed_bind; [apply framed_get_var|]. intros r.
  apply framed_emit; reflexivity.
Qed.

Lemma read_only_not_submission t :
  forallb read_only t = true ->
  (forall req, ~ In (CreateBiasJob req) t) /\
  (forall job_name logs, ~ In (WaitForJob job_name logs) t).
Proof.
  intros H. rewrite forallb_forall in H.
  split; intros; intros Hin; apply H in Hin; discriminate.
Qed.

Lemma outcome_status_returns o st :
  outcome_status o = Some st ->
  exists x l, o = Returns (x :: l) /\ PipelineExecutionStatus x = st.
Proof.
  destruct o as [[|x l]|e]; simpl; intros H; try discriminate.
  exists x, l. split; [reflexivity | congruence].
Qed.

Lemma executing_keeps_polling o :
  outcome_status o = Some "Executing" -> keeps_polling o = true.
Proof. unfold keeps_polling. intros ->. reflexivity. Qed.

Lemma initial_failure_propagates svc name fuel s e :
  svc (queries s) = Raises e ->
  await_completion svc name fuel s =
    Raised e {| globals := globals s; queries := S (queries s);
                latest_job := latest_job s;
                log := log s ++ [ListPipelineExecutions name] |}.
Proof.
  intros H. unfold await_completion. unfold bind at 1.
  rewrite (query_status_raises _ _ _ _ H). reflexivity.
Qed.

Lemma initial_empty_list_fails svc name fuel s :
  svc (queries s) = Returns [] ->
  await_completion svc name fuel s =
    Raised IndexError
      {| globals := <["executions_response" := VSummaries []]> (globals s);
         queries := S (queries s);
         latest_job := latest_job s;
         log := log s ++ [ListPipelineExecutions name] |}.
Proof.
  intros H. unfold await_completion. unfold bind at 1.
  rewrite (query_status_empty _ _ _ H). reflexivity.
Qed.

(** ** The claims about the poller *)

(** C1 (as amended).  The cell keeps polling exactly while the status it
    reads is "Executing": when the first [n] answers carry "Executing" and
    the next one carries any other status, the cell returns after exactly
    [n + 1] queries with that status and that response, whatever the status
    is (terminal or not). *)
Theorem C1_polls_only_while_executing svc name s fuel n x l :
  (forall i, i < n -> outcome_status (svc (queries s + i)) = Some "Executing") ->
  svc (queries s + n) = Returns (x :: l) ->
  PipelineExecutionStatus x <> "Executing" ->
  n <= fuel ->
  exists s', await_completion svc name fuel s = Ok tt s' /\
             queries s' = queries s + n + 1 /\
             terminal_status s' = Some (VStr (PipelineExecutionStatus x)) /\
             last_response s' = Some (VSummaries (x :: l)).
Proof.
  intros Hrun Hx Hne Hf. destruct n as [|n].
  - rewrite Nat.add_0_r in Hx.
    destruct (await_completion_immediate svc name fuel s x l Hx Hne)
      as (s' & E & Hq & Ht & Hl).
    exists s'. repeat split; try assumption. lia.
  - assert (H0 : outcome_status (svc (queries s)) = Some "Executing").
    { rewrite <- (Nat.add_0_r (queries s)). apply Hrun. lia. }
    destruct (outcome_status_returns _ _ H0) as (x0 & l0 & E0 & Hx0).
    destruct (await_completion_run svc name fuel s x0 l0 x l n E0 Hx0)
      as (s' & E & Hq & Ht & Hl).
    + intros i Hi. apply executing_keeps_polling.
      replace (S (queries s) + i) with (queries s + S i) by lia.
      apply Hrun. lia.
    + replace (S (queries s) + n) with (queries s + S n) by lia. exact Hx.
    + exact Hne.
    + lia.
    + exists s'. repeat split; try assumption. lia.
Qed.

Lemma C1_polls_only_while_executing_witness :
  exists s', await_completion executing_then_stopped "p" 1 fresh = Ok tt s' /\
             queries s' = 2 /\
             terminal_status s' = Some (VStr "Stopped") /\
             last_response s' = Some (VSummaries [summary "Stopped"]).
Proof.
  apply (C1_polls_only_while_executing executing_then_stopped "p" fresh 1 1
           (summary "Stopped") []).
  - intros i Hi. destruct i; [reflexivity | lia].
  - reflexivity.
  - discriminate.
  - lia.
Defined.

(** C1 (as stated) fails: a "Pending" status does not keep the cell
    polling.  The cell returns after its single initial query and reports
    "Pending", although the next query would have reported "Succeeded". *)
Lemma C1_pending_stops_polling :
  returned (await_completion pending_then_succeeded "p" 10 fresh) = true /\
  queries (final_state (await_completion pending_then_succeeded "p" 10 fresh)) = 1 /\
  terminal_status (final_state (await_completion pending_then_succeeded "p" 10 fresh))
    = Some (VStr "Pending") /\
  outcome_status (pending_then_succeeded 1) = Some "Succeeded".
Proof. vm_compute. repeat split. Qed.

(** C2.  When the next three answers of the status service carry
    "Executing", "Executing" and "Succeeded", the cell makes exactly three
    queries (one before the loop, one per iteration) and ends with the
    status "Succeeded". *)
Theorem C2_three_queries_then_succeeded svc name s fuel :
  outcome_status (svc (queries s)) = Some "Executing" ->
  outcome_status (svc (queries s + 1)) = Some "Executing" ->
  outcome_status (svc (queries s + 2)) = Some "Succeeded" ->
  2 <= fuel ->
  exists s', await_completion svc name fuel s = Ok tt s' /\
             queries s' = queries s + 3 /\
             count_events is_query (log s') = count_events is_query (log s) + 3 /\
             terminal_status s' = Some (VStr "Succeeded").
Proof.
  intros H0 H1 H2 Hf.
  destruct (outcome_status_returns _ _ H0) as (x0 & l0 & E0 & Hx0).
  destruct (outcome_status_returns _ _ H2) as (x2 & l2 & E2 & Hx2).
  destruct (await_completion_run svc name fuel s x0 l0 x2 l2 1 E0 Hx0)
    as (s' & E & Hq & Ht & Hl).
  - intros i Hi. apply executing_keeps_polling.
    replace (S (queries s) + i) with (queries s + 1) by lia. exact H1.
  - replace (S (queries s) + 1) with (queries s + 2) by lia. exact E2.
  - rewrite Hx2. discriminate.
  - lia.
  - exists s'. split; [exact E|]. split; [lia|]. split.
    + pose proof (framed_await_completion svc name fuel s) as [(t & L & _ & Q) _].
      rewrite E in L, Q. simpl in L, Q.
      rewrite L, count_events_app. lia.
    + rewrite Ht, Hx2. reflexivity.
Qed.

Lemma C2_three_queries_then_succeeded_witness :
  exists s', await_completion running_running_succeeded "p" 2 fresh = Ok tt s' /\
             queries s' = 3 /\
             count_events is_query (log s') = 3 /\
             terminal_status s' = Some (VStr "Succeeded").
Proof.
  apply (C2_three_queries_then_succeeded running_running_succeeded "p" fresh 2);
    [reflexivity | reflexivity | reflexivity | lia].
Defined.

(** C3 (the code departs from it).  With a status service that fails
    twice and then reports "Failed", the first failure already escapes the
    cell: the query made before the loop is outside the [try], so the cell
    raises after one query and never reaches "Failed". *)
Theorem C3_initial_failure_escapes fuel :
  await_completion transient_twice_then_failed "p" fuel fresh =
    Raised (ServiceError "ThrottlingException")
      {| globals := ∅; queries := 1; latest_job := None;
         log := [ListPipelineExecutions "p"] |}.
Proof.
  apply (initial_failure_propagates transient_twice_then_failed "p" fuel fresh).
  reflexivity.
Qed.

(** The same two failures met inside the loop are swallowed: each is
    followed by a 30 second sleep and a retry, and "Failed" comes back as
    an ordinary status. *)
Lemma in_loop_failures_are_retried :
  returned (await_completion executing_transient_twice_then_failed "p" 3 fresh) = true /\
  terminal_status
    (final_state (await_completion executing_transient_twice_then_failed "p" 3 fresh))
    = Some (VStr "Failed") /\
  log (final_state (await_completion executing_transient_twice_then_failed "p" 3 fresh))
    = [ListPipelineExecutions "p"; Print (VStr "Executing");
       ListPipelineExecutions "p"; Print (VStr "Please wait..."); Sleep 30;
       ListPipelineExecutions "p"; Print (VStr "Please wait..."); Sleep 30;
       ListPipelineExecutions "p"; Print (VSummaries [summary "Failed"])].
Proof. vm_compute. repeat split. Qed.

(** C8 (as amended).  Whatever the status service answers and however
    the run ends (returned, raised, or still looping when the fuel runs
    out), the polling code only appends queries, prints and sleeps to the
    log, never a job creation or a wait on a job, and leaves the
    processor's latest job alone.  It writes no variable other than
    [executions_response], [pipeline_execution_status] and the handler's
    [e], and [e] is afterwards either as it was or no longer bound.  The
    whole cell, which first runs its two imports, additionally binds [time]
    and [pprint] and nothing else. *)
Theorem C8_polling_frame svc name fuel s :
  (exists t, log (final_state (await_completion svc name fuel s)) = log s ++ t /\
             forallb read_only t = true /\
             (forall req, ~ In (CreateBiasJob req) t) /\
             (forall job_name logs, ~ In (WaitForJob job_name logs) t)) /\
  (forall x, x <> "executions_response" -> x <> "pipeline_execution_status" ->
             x <> "e" ->
             globals (final_state (await_completion svc name fuel s)) !! x
               = globals s !! x) /\
  (globals (final_state (await_completion svc name fuel s)) !! "e" = globals s !! "e" \/
   globals (final_state (await_completion svc name fuel s)) !! "e" = None) /\
  latest_job (final_state (await_completion svc name fuel s)) = latest_job s /\
  (exists t, log (final_state (polling_cell svc name fuel s)) = log s ++ t /\
             forallb read_only t = true) /\
  (forall x, x <> "executions_response" -> x <> "pipeline_execution_status" ->
             x <> "e" -> x <> "time" -> x <> "pprint" ->
             globals (final_state (polling_cell svc name fuel s)) !! x
               = globals s !! x) /\
  latest_job (final_state (polling_cell svc name fuel s)) = latest_job s.
Proof.
  destruct (framed_await_completion svc name fuel s) as [(t & L & R & _) [G [E J]]].
  split; [|split; [exact G | split; [exact E | split; [exact J|]]]].
  { exists t. split; [exact L|]. split; [exact R|].
    apply read_only_not_submission. exact R. }
  unfold polling_cell, bind, set_var. simpl.
  match goal with |- context [await_completion svc name fuel ?s2] => set (s2' := s2) end.
  destruct (framed_await_completion svc name fuel s2') as [(t2 & L2 & R2 & _) [G2 [_ J2]]].
  split; [|split].
  - exists t2. split; [exact L2 | exact R2].
  - intros x H1 H2 H3 H4 H5. rewrite (G2 x H1 H2 H3). unfold s2'. simpl.
    rewrite lookup_insert_ne; [|congruence]. apply lookup_insert_ne. congruence.
  - exact J2.
Qed.

(** C8 (as stated) fails: a value held in [e] before the run is gone
    after a run in which a query of the loop failed, because the handler
    binds [e] to the exception and deletes it when it is left. *)
Lemma C8_handler_unbinds_e :
  globals with_bound_e !! "e" = Some (VStr "kept") /\
  returned (await_completion executing_transient_twice_then_failed "p" 3 with_bound_e)
    = true /\
  globals (final_state
             (await_completion executing_transient_twice_then_failed "p" 3 with_bound_e))
    !! "e" = None.
Proof. vm_compute. repeat split. Qed.

(** C9 (as amended).  The status is always read from the first summary.
    An empty list answered to the query before the loop makes the cell fail
    with an index error; an empty list answered inside the loop is caught by
    the loop's handler, which prints, sleeps 30 seconds and polls again with
    [executions_response] left empty, the status unchanged and its own
    variable [e] unbound. *)
Theorem C9_first_summary_or_index_error svc name s fuel l :
  svc (queries s) = Returns l ->
  match l with
  | [] =>
      await_completion svc name fuel s =
        Raised IndexError
          {| globals := <["executions_response" := VSummaries []]> (globals s);
             queries := S (queries s);
             latest_job := latest_job s;
             log := log s ++ [ListPipelineExecutions name] |} /\
      (terminal_status s = Some (VStr "Executing") ->
       poll_loop svc name (S fuel) s =
         poll_loop svc name fuel
           {| globals := delete "e"
                           (<["executions_response" := VSummaries []]> (globals s));
              queries := S (queries s);
              latest_job := latest_job s;
              log := log s ++ [ListPipelineExecutions name;
                               Print (VStr "Please wait..."); Sleep 30] |})
  | x :: _ =>
      terminal_status (final_state (query_status svc name s))
        = Some (VStr (PipelineExecutionStatus x)) /\
      terminal_status (final_state (poll_body svc name s))
        = Some (VStr (PipelineExecutionStatus x))
  end.
Proof.
  intros H. destruct l as [|x l].
  - split; [apply initial_empty_list_fails; exact H|].
    intros Hs. rewrite (poll_loop_unfold _ _ _ _ Hs). unfold bind.
    rewrite (poll_body_empty _ _ _ H). reflexivity.
  - rewrite (query_status_returns _ _ _ _ _ H), (poll_body_returns _ _ _ _ _ H).
    unfold terminal_status. simpl. rewrite lookup_insert_eq. split; reflexivity.
Qed.

Lemma C9_first_summary_or_index_error_witness :
  no_executions (queries mid_poll) = Returns [] /\
  await_completion no_executions "p" 1 mid_poll =
    Raised IndexError
      {| globals := <["executions_response" := VSummaries []]> (globals mid_poll);
         queries := 1; latest_job := None;
         log := [ListPipelineExecutions "p"] |} /\
  (terminal_status mid_poll = Some (VStr "Executing") ->
   poll_loop no_executions "p" 2 mid_poll =
     poll_loop no_executions "p" 1
       {| globals := delete "e"
                       (<["executions_response" := VSummaries []]> (globals mid_poll));
          queries := 1; latest_job := None;
          log := [ListPipelineExecutions "p"; Print (VStr "Please wait..."); Sleep 30] |}).
Proof.
  split; [reflexivity|].
  apply (C9_first_summary_or_index_error no_executions "p" mid_poll 1 []).
  reflexivity.
Defined.

(** C9 (as stated) fails for a query made inside the loop: the empty list
    answered to the second query raises no index error out of the cell,
    which goes on to return "Succeeded" after a third query. *)
Lemma C9_empty_list_in_loop_is_retried :
  executing_empty_succeeded 1 = Returns [] /\
  returned (await_completion executing_empty_succeeded "p" 5 fresh) = true /\
  queries (final_state (await_completion executing_empty_succeeded "p" 5 fresh)) = 3 /\
  terminal_status (final_state (await_completion executing_empty_succeeded "p" 5 fresh))
    = Some (VStr "Succeeded").
Proof. vm_compute. repeat split. Qed.

(** ** The model lookup *)

Lemma scan_steps_found : forall l s step arn,
  List.find named_create_model l = Some step ->
  ModelArn step = Some arn ->
  exists s', scan_steps l s = Ok tt s' /\
             globals s' !! "model_arn" = Some (VStr arn) /\
             log s' = log s.
Proof.
  induction l as [|st l IH]; intros s step arn Hf Ha; simpl in Hf; [discriminate|].
  simpl. unfold bind, set_var.
  unfold named_create_model in Hf at 1.
  destruct (String.eqb (StepName st) "CreateModel") eqn:E.
  - injection Hf as ->. rewrite Ha. eexists. split; [reflexivity|].
    simpl. split; [apply lookup_insert_eq | reflexivity].
  - destruct (IH {| globals := <["execution_step" := VStep st]> (globals s);
                    queries := queries s; latest_job := latest_job s;
                    log := log s |} step arn Hf Ha) as (s' & E' & Hm & Hl).
    exists s'. split; [exact E'|]. split; [exact Hm | exact Hl].
Qed.

Lemma scan_steps_missing : forall l s,
  List.find named_create_model l = None ->
  exists s', scan_steps l s = Ok tt s' /\
             globals s' !! "model_arn" = globals s !! "model_arn" /\
             log s' = log s.
Proof.
  induction l as [|st l IH]; intros s Hf.
  - exists s. repeat split.
  - simpl in Hf. simpl. unfold bind, set_var.
    unfold named_create_model in Hf at 1.
    destruct (String.eqb (StepName st) "CreateModel") eqn:E; [discriminate|].
    destruct (IH {| globals := <["execution_step" := VStep st]> (globals s);
                    queries := queries s; latest_job := latest_job s;
                    log := log s |} Hf) as (s' & E' & Hm & Hl).
    exists s'. split; [exact E'|]. split; [|exact Hl].
    rewrite Hm. simpl. apply lookup_insert_ne. discriminate.
Qed.

(** C10 (as amended).  The lookup takes the model identifier of the first step named
    "CreateModel" in list order; when no step has that name and
    [model_arn] is not bound yet, the cell fails with a name error on
    [model_arn]. *)
Theorem C10_first_create_model_or_name_error s l :
  globals s !! "steps" = Some (VSteps l) ->
  match List.find named_create_model l with
  | Some step =>
      forall arn, ModelArn step = Some arn ->
      exists s', view_created_model s = Ok tt s' /\
                 globals s' !! "model_arn" = Some (VStr arn) /\
                 globals s' !! "pipeline_model_name"
                   = Some (VStr (List.last (split "/"%char arn) EmptyString))
  | None =>
      globals s !! "model_arn" = None ->
      exists s', view_created_model s = Raised (NameError "model_arn") s' /\
                 log s' = log s
  end.
Proof.
  intros Hsteps. destruct (List.find named_create_model l) as [step|] eqn:Hf.
  - intros arn Ha.
    destruct (scan_steps_found l s step arn Hf Ha) as (s1 & E1 & Hm & _).
    unfold view_created_model, bind at 1, get_var at 1. rewrite Hsteps.
    unfold bind at 1. rewrite E1.
    unfold bind at 1, get_var at 1. rewrite Hm.
    unfold bind, print, emit, set_var. simpl.
    eexists. split; [reflexivity|]. simpl. split.
    + rewrite lookup_insert_ne; [exact Hm | discriminate].
    + apply lookup_insert_eq.
  - intros Hunbound.
    destruct (scan_steps_missing l s Hf) as (s1 & E1 & Hm & Hl).
    unfold view_created_model, bind at 1, get_var at 1. rewrite Hsteps.
    unfold bind at 1. rewrite E1.
    unfold bind at 1, get_var at 1. rewrite Hm, Hunbound.
    exists s1. split; [reflexivity | exact Hl].
Qed.

Lemma C10_first_create_model_or_name_error_witness :
  (exists s', view_created_model
                (with_steps [train_step; create_model_step; register_model_step])
                = Ok tt s' /\
              globals s' !! "model_arn"
                = Some (VStr "arn:aws:sagemaker:us-east-1:000000000000:model/pipelinemodel-abc") /\
              globals s' !! "pipeline_model_name"
                = Some (VStr "pipelinemodel-abc")) /\
  (exists s', view_created_model (with_steps [train_step; register_model_step])
                = Raised (NameError "model_arn") s' /\
              log s' = []).
Proof.
  split.
  - apply (C10_first_create_model_or_name_error
             (with_steps [train_step; create_model_step; register_model_step])
             [train_step; create_model_step; register_model_step] eq_refl
             "arn:aws:sagemaker:us-east-1:000000000000:model/pipelinemodel-abc" eq_refl).
  - apply (C10_first_create_model_or_name_error
             (with_steps [train_step; register_model_step])
             [train_step; register_model_step] eq_refl eq_refl).
Defined.

(** C10 (as stated) fails: with no step named "CreateModel" the lookup
    does not fail when [model_arn] is still bound from an earlier run; it
    returns and keeps the old identifier. *)
Lemma C10_stale_model_arn_hides_missing_step :
  List.find named_create_model [train_step; register_model_step] = None /\
  returned
    (view_created_model
       (with_steps_and_model [train_step; register_model_step]
          "arn:aws:sagemaker:us-east-1:000000000000:model/old-model")) = true /\
  globals
    (final_state
       (view_created_model
          (with_steps_and_model [train_step; register_model_step]
             "arn:aws:sagemaker:us-east-1:000000000000:model/old-model")))
    !! "model_arn"
    = Some (VStr "arn:aws:sagemaker:us-east-1:000000000000:model/old-model").
Proof. vm_compute. repeat split. Qed.

(** ** Submitting the bias analysis *)

Lemma submit_accepted service dc bc mc pc ms s job_name :
  service (request dc bc mc pc ms) = Accepted job_name ->
  submit service dc bc mc pc ms s =
    Ok job_name
      {| globals := <["run_post_training_bias_processing_job_name" := VStr job_name]>
                      (globals s);
         queries := queries s;
         latest_job := Some job_name;
         log := log s ++ [CreateBiasJob (request dc bc mc pc ms)] |}.
Proof.
  intros H. unfold submit, run_post_training_bias, bind, emit. simpl.
  rewrite H. reflexivity.
Qed.




(** With [wait=True] the same call would block on the job it created. *)
Lemma run_post_training_bias_waits service dc bc mc pc ms logs s job_name :
  service (request dc bc mc pc ms) = Accepted job_name ->
  log (final_state (run_post_training_bias service dc bc mc pc ms true logs s))
    = log s ++ [CreateBiasJob (request dc bc mc pc ms); WaitForJob job_name logs].
Proof.
  intros H. unfold run_post_training_bias, bind, emit. simpl.
  rewrite H. simpl. rewrite <- app_assoc. reflexivity.
Qed.













(** * Further properties of the notebook's cells *)

(** ** What the polling cell guarantees on exit *)

Lemma poll_invariant_intro g q j lg x l :
  g !! "executions_response" = Some (VSummaries (x :: l)) ->
  g !! "pipeline_execution_status" = Some (VStr (PipelineExecutionStatus x)) ->
  poll_invariant {| globals := g; queries := q; latest_job := j; log := lg |}.
Proof.
  intros Hr Hs. split.
  - unfold last_response. simpl. rewrite Hr. eexists. reflexivity.
  - exists (PipelineExecutionStatus x). split; [exact Hs|].
    intros _. exists x, l. split; [exact Hr | reflexivity].
Qed.

Lemma poll_body_invariant svc name s :
  poll_invariant s ->
  terminal_status s = Some (VStr "Executing") ->
  exists s1, poll_body svc name s = Ok tt s1 /\ poll_invariant s1 /\
             queries s1 = S (queries s).
Proof.
  intros [Hresp _] Hs. destruct (svc (queries s)) as [[|x l]|e] eqn:E.
  - eexists. split; [apply poll_body_empty; exact E|]. split; [|reflexivity].
    split.
    + unfold last_response. simpl.
      rewrite lookup_delete_ne; [|discriminate].
      rewrite lookup_insert_eq. eexists. reflexivity.
    + exists "Executing". split.
      * unfold terminal_status. simpl.
        rewrite lookup_delete_ne; [|discriminate].
        rewrite lookup_insert_ne; [exact Hs | discriminate].
      * intros Hne. contradiction Hne. reflexivity.
  - eexists. split; [apply (poll_body_returns _ _ _ _ _ E)|]. split; [|reflexivity].
    apply (poll_invariant_intro _ _ _ _ x l).
    + rewrite lookup_insert_ne; [apply lookup_insert_eq | discriminate].
    + apply lookup_insert_eq.
  - eexists. split; [apply (poll_body_raises _ _ _ _ E)|]. split; [|reflexivity].
    split.
    + unfold last_response in *. simpl.
      rewrite lookup_delete_ne; [exact Hresp | discriminate].
    + exists "Executing". split.
      * unfold terminal_status in *. simpl.
        rewrite lookup_delete_ne; [exact Hs | discriminate].
      * intros Hne. contradiction Hne. reflexivity.
Qed.

Lemma poll_loop_invariant svc name : forall fuel s,
  poll_invariant s ->
  match poll_loop svc name fuel s with
  | Ok _ s' =>
      exists x l, last_response s' = Some (VSummaries (x :: l)) /\
                  terminal_status s' = Some (VStr (PipelineExecutionStatus x)) /\
                  PipelineExecutionStatus x <> "Executing"
  | Raised _ _ => False
  | Timeout s' => poll_invariant s'
  end.
Proof.
  induction fuel as [|fuel IH]; intros s Hinv.
  - destruct Hinv as [Hresp (st & Hs & Hpost)].
    destruct (String.eqb st "Executing") eqn:E.
    + apply String.eqb_eq in E. subst st.
      rewrite (poll_loop_out_of_fuel _ _ _ Hs).
      split; [exact Hresp|]. exists "Executing". split; [exact Hs | exact Hpost].
    + apply String.eqb_neq in E.
      rewrite (poll_loop_exit _ _ _ _ _ Hs E).
      destruct (Hpost E) as (x & l & Hr & Hx). exists x, l.
      split; [exact Hr|]. split; [rewrite Hx; exact Hs | rewrite Hx; exact E].
  - pose proof Hinv as [Hresp (st & Hs & Hpost)].
    destruct (String.eqb st "Executing") eqn:E.
    + apply String.eqb_eq in E. subst st.
      rewrite (poll_loop_unfold _ _ _ _ Hs). unfold bind.
      destruct (poll_body_invariant svc name s Hinv Hs) as (s1 & E1 & Hinv1 & _).
      rewrite E1. apply IH. exact Hinv1.
    + apply String.eqb_neq in E.
      rewrite (poll_loop_exit _ _ _ _ _ Hs E).
      destruct (Hpost E) as (x & l & Hr & Hx). exists x, l.
      split; [exact Hr|]. split; [rewrite Hx; exact Hs | rewrite Hx; exact E].
Qed.

Lemma await_completion_outcomes svc name fuel s x0 l0 :
  svc (queries s) = Returns (x0 :: l0) ->
  match await_completion svc name fuel s with
  | Ok _ s' =>
      exists x l, last_response s' = Some (VSummaries (x :: l)) /\
                  terminal_status s' = Some (VStr (PipelineExecutionStatus x)) /\
                  PipelineExecutionStatus x <> "Executing"
  | Raised _ _ => False
  | Timeout s' => poll_invariant s'
  end.
Proof.
  intros H0. rewrite (await_completion_start _ _ _ _ _ _ H0).
  match goal with |- context [bind _ _ ?s1] => set (s1' := s1) end.
  assert (Hinv : poll_invariant s1').
  { apply (poll_invariant_intro _ _ _ _ x0 l0).
    - rewrite lookup_insert_ne; [apply lookup_insert_eq | discriminate].
    - apply lookup_insert_eq. }
  pose proof (poll_loop_invariant svc name fuel s1' Hinv) as Hloop.
  unfold bind at 1.
  destruct (poll_loop svc name fuel s1') as [[] s2|e s2|s2]; try exact Hloop.
  destruct Hloop as (x & l & Hr & Ht & Hne).
  unfold bind, get_var. unfold last_response in Hr. rewrite Hr.
  exists x, l. split; [exact Hr|]. split; [exact Ht | exact Hne].
Qed.

(** X1.  Whenever the polling cell returns, the status it leaves is not
    "Executing", [executions_response] is a non-empty list, and the status
    is the one carried by its first summary. *)
Theorem X1_polling_returns_settled svc name fuel s s' :
  await_completion svc name fuel s = Ok tt s' ->
  exists x l, last_response s' = Some (VSummaries (x :: l)) /\
              terminal_status s' = Some (VStr (PipelineExecutionStatus x)) /\
              PipelineExecutionStatus x <> "Executing".
Proof.
  intros H. destruct (svc (queries s)) as [[|x0 l0]|e] eqn:E.
  - rewrite (initial_empty_list_fails _ _ _ _ E) in H. discriminate.
  - pose proof (await_completion_outcomes svc name fuel s x0 l0 E) as Hout.
    rewrite H in Hout. exact Hout.
  - rewrite (initial_failure_propagates _ _ _ _ _ E) in H. discriminate.
Qed.

Lemma X1_polling_returns_settled_witness :
  exists s',
    await_completion executing_empty_succeeded "p" 5 fresh = Ok tt s' /\
    exists x l, last_response s' = Some (VSummaries (x :: l)) /\
                terminal_status s' = Some (VStr (PipelineExecutionStatus x)) /\
                PipelineExecutionStatus x <> "Executing".
Proof.
  eexists. split; [vm_compute; reflexivity|].
  apply (X1_polling_returns_settled executing_empty_succeeded "p" 5 fresh).
  vm_compute. reflexivity.
Defined.

(** X2.  The loop never raises: an exception leaves the polling cell only
    from the query made before the loop, after exactly one query, and it is
    either the exception that query raised or the index error on its empty
    answer. *)
Theorem X2_polling_raises_only_at_first_query svc name fuel s e s' :
  await_completion svc name fuel s = Raised e s' ->
  queries s' = S (queries s) /\
  (svc (queries s) = Raises e \/
   (svc (queries s) = Returns [] /\ e = IndexError)).
Proof.
  intros H. destruct (svc (queries s)) as [[|x0 l0]|e0] eqn:E.
  - rewrite (initial_empty_list_fails _ _ _ _ E) in H.
    injection H as <- <-. simpl. split; [reflexivity|]. right. split; reflexivity.
  - pose proof (await_completion_outcomes svc name fuel s x0 l0 E) as Hout.
    rewrite H in Hout. contradiction.
  - rewrite (initial_failure_propagates _ _ _ _ _ E) in H.
    injection H as <- <-. simpl. split; [reflexivity|]. left. reflexivity.
Qed.

Lemma X2_polling_raises_only_at_first_query_witness :
  await_completion no_executions "p" 3 fresh =
    Raised IndexError
      {| globals := <["executions_response" := VSummaries []]> ∅;
         queries := 1; latest_job := None; log := [ListPipelineExecutions "p"] |} /\
  1 = S (queries fresh) /\
  (no_executions (queries fresh) = Raises IndexError \/
   (no_executions (queries fresh) = Returns [] /\ IndexError = IndexError)).
Proof.
  split; [vm_compute; reflexivity|].
  apply (X2_polling_raises_only_at_first_query no_executions "p" 3 fresh IndexError
           {| globals := <["executions_response" := VSummaries []]> ∅;
              queries := 1; latest_job := None; log := [ListPipelineExecutions "p"] |}).
  vm_compute. reflexivity.
Defined.

(** ** The cells that read the response back *)

Lemma read_back_after_polling s x l :
  last_response s = Some (VSummaries (x :: l)) ->
  (read_execution_status;; read_execution_arn) s =
    Ok tt {| globals := <["pipeline_execution_arn" := VStr (PipelineExecutionArn x)]>
                          (<["pipeline_execution_status" := VStr (PipelineExecutionStatus x)]>
                             (globals s));
             queries := queries s;
             latest_job := latest_job s;
             log := log s ++ [Print (VStr (PipelineExecutionStatus x));
                              Print (VStr (PipelineExecutionArn x))] |}.
Proof.
  unfold last_response. intros Hr.
  unfold read_execution_status, read_execution_arn, first_status, first_arn.
  unfold bind, get_var, set_var, print, emit. simpl.
  rewrite Hr. simpl. rewrite lookup_insert_eq. simpl.
  rewrite lookup_insert_ne; [|discriminate]. rewrite Hr. simpl.
  rewrite lookup_insert_eq. simpl. rewrite <- app_assoc. reflexivity.
Qed.

(** X3.  After the polling cell has returned, the two cells that index
    [executions_response[0]] again cannot fail: they make no further query,
    leave the status as the loop left it, and bind [pipeline_execution_arn]
    to the identifier in the first summary of the last response. *)
Theorem X3_read_back_cells_succeed svc name fuel s s1 :
  await_completion svc name fuel s = Ok tt s1 ->
  exists x l s2,
    last_response s1 = Some (VSummaries (x :: l)) /\
    (read_execution_status;; read_execution_arn) s1 = Ok tt s2 /\
    terminal_status s2 = terminal_status s1 /\
    globals s2 !! "pipeline_execution_arn" = Some (VStr (PipelineExecutionArn x)) /\
    queries s2 = queries s1.
Proof.
  intros H. destruct (svc (queries s)) as [[|x0 l0]|e] eqn:E.
  - rewrite (initial_empty_list_fails _ _ _ _ E) in H. discriminate.
  - pose proof (await_completion_outcomes svc name fuel s x0 l0 E) as Hout.
    rewrite H in Hout. destruct Hout as (x & l & Hr & Ht & _).
    exists x, l. eexists. split; [exact Hr|].
    split; [apply (read_back_after_polling _ _ _ Hr)|].
    simpl. split; [|split; [apply lookup_insert_eq | reflexivity]].
    unfold terminal_status in *. simpl.
    rewrite lookup_insert_ne; [|discriminate].
    rewrite lookup_insert_eq. symmetry. exact Ht.
  - rewrite (initial_failure_propagates _ _ _ _ _ E) in H. discriminate.
Qed.

Lemma X3_read_back_cells_succeed_witness :
  exists s1,
    await_completion executing_then_stopped "p" 4 fresh = Ok tt s1 /\
    exists x l s2,
      last_response s1 = Some (VSummaries (x :: l)) /\
      (read_execution_status;; read_execution_arn) s1 = Ok tt s2 /\
      terminal_status s2 = terminal_status s1 /\
      globals s2 !! "pipeline_execution_arn" = Some (VStr (PipelineExecutionArn x)) /\
      queries s2 = queries s1.
Proof.
  eexists. split; [vm_compute; reflexivity|].
  apply (X3_read_back_cells_succeed executing_then_stopped "p" 4 fresh).
  vm_compute. reflexivity.
Defined.

(** ** When the loop sleeps *)

Lemma count_failed_add svc : forall m n from,
  count_failed svc from (m + n) = count_failed svc from m + count_failed svc (from + m) n.
Proof.
  induction m as [|m IH]; intros n from; simpl.
  - rewrite Nat.add_0_r. reflexivity.
  - rewrite IH. replace (S from + m) with (from + S m) by lia. lia.
Qed.

Lemma poll_body_sleeps svc name s :
  exists s1 t1, poll_body svc name s = Ok tt s1 /\
                queries s1 = S (queries s) /\
                log s1 = log s ++ t1 /\
                count_events is_sleep t1 = count_failed svc (queries s) 1 /\
                (forall n, In (Sleep n) t1 -> n = 30).
Proof.
  simpl. destruct (svc (queries s)) as [[|x l]|e] eqn:E.
  - eexists. eexists. split; [apply poll_body_empty; exact E|]. simpl.
    repeat split. intros n [Hn|[Hn|[Hn|[]]]]; congruence.
  - eexists. eexists. split; [apply (poll_body_returns _ _ _ _ _ E)|]. simpl.
    repeat split. intros n [Hn|[]]. discriminate.
  - eexists. eexists. split; [apply (poll_body_raises _ _ _ _ E)|]. simpl.
    repeat split. intros n [Hn|[Hn|[Hn|[]]]]; congruence.
Qed.

Lemma poll_loop_sleeps svc name : forall fuel s,
  exists t, log (final_state (poll_loop svc name fuel s)) = log s ++ t /\
            queries s <= queries (final_state (poll_loop svc name fuel s)) /\
            count_events is_sleep t
              = count_failed svc (queries s)
                  (queries (final_state (poll_loop svc name fuel s)) - queries s) /\
            (forall n, In (Sleep n) t -> n = 30).
Proof.
  assert (Hstay : forall s : state,
            exists t, log s = log s ++ t /\ queries s <= queries s /\
                      count_events is_sleep t
                        = count_failed svc (queries s) (queries s - queries s) /\
                      (forall n, In (Sleep n) t -> n = 30)).
  { intros s. exists []. rewrite app_nil_r, Nat.sub_diag. simpl.
    repeat split; [lia | intros n []]. }
  induction fuel as [|fuel IH]; intros s.
  - simpl. unfold bind, status_is_executing, bind, get_var.
    destruct (globals s !! "pipeline_execution_status") as [v|]; simpl;
      [|apply Hstay].
    destruct (match v with VStr st => String.eqb st "Executing" | _ => false end);
      simpl; apply Hstay.
  - simpl. unfold bind at 1. unfold status_is_executing, bind, get_var.
    destruct (globals s !! "pipeline_execution_status") as [v|]; simpl;
      [|apply Hstay].
    destruct (match v with VStr st => String.eqb st "Executing" | _ => false end);
      simpl; [|apply Hstay].
    destruct (poll_body_sleeps svc name s) as (s1 & t1 & E1 & Hq1 & L1 & C1 & D1).
    rewrite E1.
    destruct (IH s1) as (t & L & Hq & C & D).
    exists (t1 ++ t). rewrite L, L1, <- app_assoc. split; [reflexivity|].
    split; [lia|]. split.
    + rewrite count_events_app, C1, C, Hq1.
      replace (queries (final_state (poll_loop svc name fuel s1)) - queries s)
        with (1 + (queries (final_state (poll_loop svc name fuel s1)) - S (queries s)))
        by lia.
      rewrite count_failed_add.
      replace (queries s + 1) with (S (queries s)) by lia. reflexivity.
    + intros n Hn. apply in_app_iff in Hn. destruct Hn; [apply D1 | apply D]; assumption.
Qed.

(** X4.  The cell sleeps only after a query of the loop has failed: the
    number of sleeps of a run equals the number of failing answers (an
    exception or an empty list) among the queries made inside the loop, and
    every sleep lasts 30 seconds.  Queries that succeed follow one another
    without any pause. *)
Theorem X4_sleeps_follow_failed_queries svc name fuel s :
  exists t,
    log (final_state (await_completion svc name fuel s)) = log s ++ t /\
    count_events is_sleep t
      = count_failed svc (S (queries s))
          (queries (final_state (await_completion svc name fuel s)) - S (queries s)) /\
    (forall n, In (Sleep n) t -> n = 30).
Proof.
  destruct (svc (queries s)) as [[|x0 l0]|e] eqn:E.
  - rewrite (initial_empty_list_fails _ _ _ _ E). simpl.
    exists [ListPipelineExecutions name]. rewrite Nat.sub_diag. simpl.
    repeat split. intros n [Hn|[]]. discriminate.
  - rewrite (await_completion_start _ _ _ _ _ _ E).
    match goal with |- context [bind _ _ ?s1] => set (s1' := s1) end.
    destruct (poll_loop_sleeps svc name fuel s1') as (t & L & Hq & C & D).
    assert (Hfinal :
      exists t2, log (final_state
                        ((poll_loop svc name fuel;;
                          r <- get_var "executions_response";; print r) s1'))
                   = log (final_state (poll_loop svc name fuel s1')) ++ t2 /\
                 queries (final_state
                            ((poll_loop svc name fuel;;
                              r <- get_var "executions_response";; print r) s1'))
                   = queries (final_state (poll_loop svc name fuel s1')) /\
                 count_events is_sleep t2 = 0 /\
                 (forall n, ~ In (Sleep n) t2)).
    { unfold bind.
      destruct (poll_loop svc name fuel s1') as [[] s2|e2 s2|s2]; simpl.
      - unfold get_var.
        destruct (globals s2 !! "executions_response") as [v|]; simpl.
        + exists [Print v]. split; [reflexivity|]. split; [reflexivity|].
          split; [reflexivity|]. intros n [Hn|[]]. discriminate.
        + exists []. rewrite app_nil_r. split; [reflexivity|]. split; [reflexivity|].
          split; [reflexivity|]. intros n [].
      - exists []. rewrite app_nil_r. split; [reflexivity|]. split; [reflexivity|].
        split; [reflexivity|]. intros n [].
      - exists []. rewrite app_nil_r. split; [reflexivity|]. split; [reflexivity|].
        split; [reflexivity|]. intros n []. }
    destruct Hfinal as (t2 & L2 & Hq2 & C2 & D2).
    exists ([ListPipelineExecutions name; Print (VStr (PipelineExecutionStatus x0))]
              ++ t ++ t2).
    rewrite L2, Hq2, L. unfold s1' at 1. simpl log.
    rewrite <- !app_assoc. split; [reflexivity|]. split.
    + rewrite !count_events_app, C, C2. unfold s1'. simpl. lia.
    + intros n Hn. simpl in Hn. destruct Hn as [Hn|[Hn|Hn]]; try discriminate.
      apply in_app_iff in Hn. destruct Hn as [Hn|Hn]; [apply D; exact Hn|].
      contradiction (D2 n Hn).
  - rewrite (initial_failure_propagates _ _ _ _ _ E). simpl.
    exists [ListPipelineExecutions name]. rewrite Nat.sub_diag. simpl.
    repeat split. intros n [Hn|[]]. discriminate.
Qed.

(** ** Splitting the model identifier *)

Lemma split_nonempty sep s : split sep s <> [].
Proof.
  destruct s as [|c rest]; simpl; [discriminate|].
  destruct (Ascii.eqb c sep); [discriminate|].
  destruct (split sep rest); discriminate.
Qed.

Lemma join_cons sep x y l :
  join sep (x :: y :: l) = (x ++ sep ++ join sep (y :: l))%string.
Proof. reflexivity. Qed.

Lemma join_split sep : forall s,
  join (String sep EmptyString) (split sep s) = s.
Proof.
  induction s as [|c rest IH]; [reflexivity|]. simpl split.
  destruct (Ascii.eqb c sep) eqn:E.
  - apply Ascii.eqb_eq in E. subst c.
    destruct (split sep rest) as [|y ys] eqn:Es; [contradiction (split_nonempty _ _ Es)|].
    rewrite join_cons, IH. reflexivity.
  - destruct (split sep rest) as [|x xs] eqn:Es; [contradiction (split_nonempty _ _ Es)|].
    destruct xs as [|y ys].
    + simpl in *. rewrite IH. reflexivity.
    + rewrite join_cons. rewrite join_cons in IH. rewrite <- IH. reflexivity.
Qed.

Lemma last_segment_has_no_separator sep : forall s,
  has_char sep (List.last (split sep s) EmptyString) = false.
Proof.
  induction s as [|c rest IH]; [reflexivity|]. simpl split.
  destruct (Ascii.eqb c sep) eqn:E.
  - destruct (split sep rest) as [|y ys] eqn:Es; [contradiction (split_nonempty _ _ Es)|].
    exact IH.
  - destruct (split sep rest) as [|x xs] eqn:Es; [contradiction (split_nonempty _ _ Es)|].
    destruct xs as [|y ys].
    + simpl in *. rewrite E, IH. reflexivity.
    + exact IH.
Qed.

Lemma last_segment_is_suffix sep : forall s,
  exists prefix, s = (prefix ++ List.last (split sep s) EmptyString)%string.
Proof.
  induction s as [|c rest IH]; [exists EmptyString; reflexivity|]. simpl split.
  destruct IH as [p Hp].
  destruct (Ascii.eqb c sep) eqn:E.
  - destruct (split sep rest) as [|y ys] eqn:Es; [contradiction (split_nonempty _ _ Es)|].
    exists (String c p). rewrite Hp at 1. reflexivity.
  - destruct (split sep rest) as [|x xs] eqn:Es; [contradiction (split_nonempty _ _ Es)|].
    destruct xs as [|y ys].
    + exists EmptyString. simpl.
      pose proof (join_split sep rest) as J. rewrite Es in J. simpl in J.
      rewrite J. reflexivity.
    + exists (String c p). rewrite Hp at 1. reflexivity.
Qed.

(** X5.  Splitting on a separator and joining with it again gives the
    string back, and the split is never empty, so taking its last element
    cannot fail. *)
Theorem X5_split_then_join sep s :
  split sep s <> [] /\ join (String sep EmptyString) (split sep s) = s.
Proof. split; [apply split_nonempty | apply join_split]. Qed.

(** X6.  Whenever the lookup cell returns, [model_arn] and
    [pipeline_model_name] are bound to strings, the model name contains no
    slash, and the identifier ends with the model name. *)
Theorem X6_model_name_is_last_segment s s' :
  view_created_model s = Ok tt s' ->
  exists arn name prefix,
    globals s' !! "model_arn" = Some (VStr arn) /\
    globals s' !! "pipeline_model_name" = Some (VStr name) /\
    has_char "/"%char name = false /\
    arn = (prefix ++ name)%string.
Proof.
  unfold view_created_model. unfold bind at 1, get_var at 1.
  destruct (globals s !! "steps") as [[st|ls|l|st|e|m|f]|]; try discriminate.
  unfold bind at 1.
  destruct (scan_steps l s) as [[] s1|e1 s1|s1]; try discriminate.
  unfold bind at 1, get_var at 1.
  destruct (globals s1 !! "model_arn") as [[arn|ls|l'|st|e|m|f]|] eqn:Hm;
    unfold bind, print, emit, raise, set_var; simpl; try discriminate.
  intros H. injection H as <-. simpl.
  destruct (last_segment_is_suffix "/"%char arn) as [p Hp].
  exists arn, (List.last (split "/"%char arn) EmptyString), p.
  split; [rewrite lookup_insert_ne; [exact Hm | discriminate]|].
  split; [apply lookup_insert_eq|].
  split; [apply last_segment_has_no_separator | exact Hp].
Qed.

Lemma X6_model_name_is_last_segment_witness :
  exists s',
    view_created_model (with_steps [train_step; create_model_step]) = Ok tt s' /\
    exists arn name prefix,
      globals s' !! "model_arn" = Some (VStr arn) /\
      globals s' !! "pipeline_model_name" = Some (VStr name) /\
      has_char "/"%char name = false /\
      arn = (prefix ++ name)%string.
Proof.
  eexists. split; [vm_compute; reflexivity|].
  apply (X6_model_name_is_last_segment (with_steps [train_step; create_model_step])).
  vm_compute. reflexivity.
Defined.

(** ** Edge cases of the model lookup *)

Lemma view_created_model_with_arn s l s1 arn :
  globals s !! "steps" = Some (VSteps l) ->
  scan_steps l s = Ok tt s1 ->
  globals s1 !! "model_arn" = Some (VStr arn) ->
  view_created_model s =
    Ok tt {| globals := <["pipeline_model_name" :=
                            VStr (List.last (split "/"%char arn) EmptyString)]> (globals s1);
             queries := queries s1;
             latest_job := latest_job s1;
             log := log s1 ++ [Print (VStr arn);
                               Print (VStr (List.last (split "/"%char arn) EmptyString))] |}.
Proof.
  intros Hsteps E1 Hm.
  unfold view_created_model, bind at 1, get_var at 1. rewrite Hsteps.
  unfold bind at 1. rewrite E1.
  unfold bind at 1, get_var at 1. rewrite Hm.
  unfold bind, print, emit, set_var. simpl.
  rewrite <- app_assoc. reflexivity.
Qed.

(** X7.  When no step is named "CreateModel" but [model_arn] is still
    bound from an earlier run, the lookup does not fail: it silently keeps
    the old identifier and derives the model name from it. *)
Theorem X7_stale_model_arn_is_reused s l arn :
  globals s !! "steps" = Some (VSteps l) ->
  List.find named_create_model l = None ->
  globals s !! "model_arn" = Some (VStr arn) ->
  exists s', view_created_model s = Ok tt s' /\
             globals s' !! "model_arn" = Some (VStr arn) /\
             globals s' !! "pipeline_model_name"
               = Some (VStr (List.last (split "/"%char arn) EmptyString)).
Proof.
  intros Hsteps Hf Hold.
  destruct (scan_steps_missing l s Hf) as (s1 & E1 & Hm & _).
  rewrite Hold in Hm.
  eexists. split; [apply (view_created_model_with_arn _ _ _ _ Hsteps E1 Hm)|].
  simpl. split.
  - rewrite lookup_insert_ne; [exact Hm | discriminate].
  - apply lookup_insert_eq.
Qed.

Lemma X7_stale_model_arn_is_reused_witness :
  exists s',
    view_created_model
      (with_steps_and_model [train_step; register_model_step]
         "arn:aws:sagemaker:us-east-1:000000000000:model/old-model") = Ok tt s' /\
    globals s' !! "model_arn"
      = Some (VStr "arn:aws:sagemaker:us-east-1:000000000000:model/old-model") /\
    globals s' !! "pipeline_model_name" = Some (VStr "old-model").
Proof.
  apply (X7_stale_model_arn_is_reused
           (with_steps_and_model [train_step; register_model_step]
              "arn:aws:sagemaker:us-east-1:000000000000:model/old-model")
           [train_step; register_model_step]
           "arn:aws:sagemaker:us-east-1:000000000000:model/old-model");
    reflexivity.
Defined.

Lemma scan_steps_without_arn : forall l s step,
  List.find named_create_model l = Some step ->
  ModelArn step = None ->
  exists key s', scan_steps l s = Raised (KeyError key) s' /\
                 globals s' !! "model_arn" = globals s !! "model_arn" /\
                 globals s' !! "pipeline_model_name" = globals s !! "pipeline_model_name" /\
                 log s' = log s.
Proof.
  induction l as [|st l IH]; intros s step Hf Ha; simpl in Hf; [discriminate|].
  simpl. unfold bind, set_var.
  unfold named_create_model in Hf at 1.
  destruct (String.eqb (StepName st) "CreateModel") eqn:E.
  - injection Hf as ->. rewrite Ha. eexists. eexists. split; [reflexivity|].
    simpl. split; [|split; [|reflexivity]]; apply lookup_insert_ne; discriminate.
  - destruct (IH {| globals := <["execution_step" := VStep st]> (globals s);
                    queries := queries s; latest_job := latest_job s;
                    log := log s |} step Hf Ha) as (key & s' & E' & Hm & Hp & Hl).
    exists key, s'. split; [exact E'|]. simpl in Hm, Hp, Hl.
    split; [|split; [|exact Hl]].
    + rewrite Hm. apply lookup_insert_ne. discriminate.
    + rewrite Hp. apply lookup_insert_ne. discriminate.
Qed.

(** X8.  The scan stops at the first step named "CreateModel": when that
    step carries no model identifier the lookup fails with a key error,
    whatever the later steps contain, and it neither prints anything nor
    rebinds [model_arn] or [pipeline_model_name]. *)
Theorem X8_first_create_model_without_arn s l step :
  globals s !! "steps" = Some (VSteps l) ->
  List.find named_create_model l = Some step ->
  ModelArn step = None ->
  exists key s', view_created_model s = Raised (KeyError key) s' /\
                 globals s' !! "model_arn" = globals s !! "model_arn" /\
                 globals s' !! "pipeline_model_name" = globals s !! "pipeline_model_name" /\
                 log s' = log s.
Proof.
  intros Hsteps Hf Ha.
  destruct (scan_steps_without_arn l s step Hf Ha) as (key & s' & E' & Hm & Hp & Hl).
  exists key, s'. split; [|split; [exact Hm | split; [exact Hp | exact Hl]]].
  unfold view_created_model, bind at 1, get_var at 1. rewrite Hsteps.
  unfold bind at 1. rewrite E'. reflexivity.
Qed.

Lemma X8_first_create_model_without_arn_witness :
  exists key s',
    view_created_model
      (with_steps [train_step; broken_create_model_step; create_model_step])
      = Raised (KeyError key) s' /\
    globals s' !! "model_arn"
      = globals (with_steps [train_step; broken_create_model_step; create_model_step])
          !! "model_arn" /\
    globals s' !! "pipeline_model_name"
      = globals (with_steps [train_step; broken_create_model_step; create_model_step])
          !! "pipeline_model_name" /\
    log s' = [].
Proof.
  apply (X8_first_create_model_without_arn
           (with_steps [train_step; broken_create_model_step; create_model_step])
           [train_step; broken_create_model_step; create_model_step]
           broken_create_model_step);
    reflexivity.
Defined.

(** ** Where the report goes *)

Lemma string_app_assoc : forall a b c : string,
  ((a ++ b) ++ c)%string = (a ++ (b ++ c))%string.
Proof.
  induction a as [|ch a IH]; intros b c; [reflexivity|].
  change (String ch ((a ++ b) ++ c) = String ch (a ++ (b ++ c)))%string.
  f_equal. apply IH.
Qed.

Lemma string_app_inj : forall a x y : string,
  (a ++ x)%string = (a ++ y)%string -> x = y.
Proof.
  induction a as [|ch a IH]; intros x y H; [exact H|].
  change (String ch (a ++ x) = String ch (a ++ y))%string in H.
  injection H as H. apply IH. exact H.
Qed.

Lemma split_without_separator sep : forall s,
  has_char sep s = false -> split sep s = [s].
Proof.
  induction s as [|c rest IH]; intros H; [reflexivity|].
  simpl in H. apply orb_false_iff in H. destruct H as [Hc Hrest].
  simpl. rewrite Hc, (IH Hrest). reflexivity.
Qed.

Lemma split_app_two sep b : forall a,
  exists x y ys, split sep (a ++ String sep b)%string = x :: y :: ys.
Proof.
  induction a as [|c a IH]; simpl.
  - rewrite Ascii.eqb_refl.
    destruct (split sep b) as [|y ys] eqn:Es; [contradiction (split_nonempty _ _ Es)|].
    exists EmptyString, y, ys. reflexivity.
  - destruct IH as (x & y & ys & E). rewrite E.
    destruct (Ascii.eqb c sep); eexists; eexists; eexists; reflexivity.
Qed.

Lemma last_split_app sep b : forall a,
  List.last (split sep (a ++ String sep b)%string) EmptyString
    = List.last (split sep b) EmptyString.
Proof.
  induction a as [|c a IH]; simpl.
  - rewrite Ascii.eqb_refl.
    destruct (split sep b) as [|y ys] eqn:Es; [contradiction (split_nonempty _ _ Es)|].
    reflexivity.
  - destruct (split_app_two sep b a) as (x & y & ys & E).
    rewrite E in IH |- *.
    destruct (Ascii.eqb c sep); exact IH.
Qed.

(** X9.  In one bucket, different model names give different report
    locations. *)
Theorem X9_report_path_determines_model bucket name1 name2 :
  bias_report_output_path bucket name1 = bias_report_output_path bucket name2 ->
  name1 = name2.
Proof.
  unfold bias_report_output_path, bias_report_prefix. intros H.
  apply string_app_inj in H. apply string_app_inj in H.
  apply string_app_inj in H. apply string_app_inj in H. exact H.
Qed.

Lemma X9_report_path_determines_model_witness :
  bias_report_output_path "bucket" "model-a" = bias_report_output_path "bucket" "model-a" /\
  "model-a" = "model-a".
Proof.
  split; [reflexivity|].
  apply (X9_report_path_determines_model "bucket" "model-a" "model-a"). reflexivity.
Defined.

(** X10.  For a model name without a slash, as the lookup cell produces
    it, the last path segment of the report location is ["report-"]
    followed by the model name, whatever the bucket is called. *)
Theorem X10_report_folder_is_named_after_model bucket name :
  has_char "/"%char name = false ->
  List.last (split "/"%char (bias_report_output_path bucket name)) EmptyString
    = ("report-" ++ name)%string.
Proof.
  intros H. unfold bias_report_output_path, bias_report_prefix.
  rewrite <- string_app_assoc.
  change ("/" ++ "bias/report-" ++ name)%string
    with (String "/"%char ("bias" ++ String "/"%char ("report-" ++ name)))%string.
  rewrite last_split_app, last_split_app.
  rewrite split_without_separator; [reflexivity|].
  simpl. exact H.
Qed.

Lemma X10_report_folder_is_named_after_model_witness :
  has_char "/"%char "pipelinemodel-abc" = false /\
  List.last (split "/"%char (bias_report_output_path "my/bucket" "pipelinemodel-abc"))
    EmptyString = "report-pipelinemodel-abc".
Proof.
  split; [reflexivity|].
  apply (X10_report_folder_is_named_after_model "my/bucket" "pipelinemodel-abc").
  reflexivity.
Defined.

(** ** Submitting more than once *)



(** ** From the created model to the submitted job *)

(** X12.  Run in notebook order, the lookup and submission cells submit an
    analysis of exactly the model the first "CreateModel" step created: the
    request names the last segment of that step's identifier as the model,
    writes the report under [bias/report-] followed by that name, and asks
    for the notebook's nine metrics.  When no step is named "CreateModel"
    and [model_arn] is unbound, the run stops with a name error before any
    job-creation call. *)
Theorem X12_analysis_targets_created_model service bucket uri s l :
  globals s !! "steps" = Some (VSteps l) ->
  match List.find named_create_model l with
  | Some step =>
      forall arn job_name,
        ModelArn step = Some arn ->
        service
          (request
             (notebook_data_config uri
                (bias_report_output_path bucket
                   (List.last (split "/"%char arn) EmptyString)))
             notebook_bias_config
             (notebook_model_config (List.last (split "/"%char arn) EmptyString))
             notebook_predictions_config notebook_methods) = Accepted job_name ->
        exists s',
          run_bias_analysis service bucket uri s = Ok job_name s' /\
          latest_job s' = Some job_name /\
          log s' = log s ++
            [Print (VStr arn);
             Print (VStr (List.last (split "/"%char arn) EmptyString));
             CreateBiasJob
               (request
                  (notebook_data_config uri
                     (bias_report_output_path bucket
                        (List.last (split "/"%char arn) EmptyString)))
                  notebook_bias_config
                  (notebook_model_config (List.last (split "/"%char arn) EmptyString))
                  notebook_predictions_config notebook_methods)]
  | None =>
      globals s !! "model_arn" = None ->
      exists s',
        run_bias_analysis service bucket uri s = Raised (NameError "model_arn") s' /\
        log s' = log s
  end.
Proof.
  intros Hsteps. destruct (List.find named_create_model l) as [step|] eqn:Hf.
  - intros arn job_name Ha Hacc.
    destruct (scan_steps_found l s step arn Hf Ha) as (s1 & E1 & Hm & Hl).
    unfold run_bias_analysis. unfold bind at 1.
    rewrite (view_created_model_with_arn _ _ _ _ Hsteps E1 Hm).
    unfold bind at 1, get_var at 1. simpl globals. rewrite lookup_insert_eq.
    eexists. split; [apply (submit_accepted _ _ _ _ _ _ _ _ Hacc)|].
    simpl. split; [reflexivity|]. rewrite Hl, <- app_assoc. reflexivity.
  - intros Hunbound.
    destruct (scan_steps_missing l s Hf) as (s1 & E1 & Hm & Hl).
    exists s1. split; [|exact Hl].
    unfold run_bias_analysis. unfold bind at 1.
    unfold view_created_model, bind at 1, get_var at 1. rewrite Hsteps.
    unfold bind at 1. rewrite E1.
    unfold bind at 1, get_var at 1. rewrite Hm, Hunbound. reflexivity.
Qed.

Lemma X12_analysis_targets_created_model_witness :
  (exists s',
     run_bias_analysis accept_notebook_methods "bucket" "s3://bucket/in.jsonl"
       (with_steps [train_step; create_model_step; register_model_step])
       = Ok "Clarify-Posttraining-Bias-pipelinemodel-abc" s' /\
     latest_job s' = Some "Clarify-Posttraining-Bias-pipelinemodel-abc" /\
     log s' =
       [Print (VStr "arn:aws:sagemaker:us-east-1:000000000000:model/pipelinemodel-abc");
        Print (VStr "pipelinemodel-abc");
        CreateBiasJob
          (request
             (notebook_data_config "s3://bucket/in.jsonl"
                "s3://bucket/bias/report-pipelinemodel-abc")
             notebook_bias_config (notebook_model_config "pipelinemodel-abc")
             notebook_predictions_config notebook_methods)]) /\
  (exists s',
     run_bias_analysis accept_notebook_methods "bucket" "s3://bucket/in.jsonl"
       (with_steps [train_step; register_model_step])
       = Raised (NameError "model_arn") s' /\
     log s' = []).
Proof.
  split.
  - apply (X12_analysis_targets_created_model accept_notebook_methods "bucket"
             "s3://bucket/in.jsonl"
             (with_steps [train_step; create_model_step; register_model_step])
             [train_step; create_model_step; register_model_step] eq_refl
             "arn:aws:sagemaker:us-east-1:000000000000:model/pipelinemodel-abc"
             "Clarify-Posttraining-Bias-pipelinemodel-abc" eq_refl eq_refl).
  - apply (X12_analysis_targets_created_model accept_notebook_methods "bucket"
             "s3://bucket/in.jsonl"
             (with_steps [train_step; register_model_step])
             [train_step; register_model_step] eq_refl eq_refl).
Defined.

(** ** No limit on retries *)

(** X13.  The loop has no retry limit: once the first answer carries
    "Executing", the cell is still polling, with the status unchanged,
    after any number of further answers that fail or still carry
    "Executing", having made one query per answer. *)
Theorem X13_polling_never_gives_up svc name fuel s :
  outcome_status (svc (queries s)) = Some "Executing" ->
  (forall i, i < fuel -> keeps_polling (svc (S (queries s) + i)) = true) ->
  exists s', await_completion svc name fuel s = Timeout s' /\
             queries s' = queries s + fuel + 1 /\
             terminal_status s' = Some (VStr "Executing").
Proof.
  intros H0 Hk.
  destruct (outcome_status_returns _ _ H0) as (x0 & l0 & E0 & Hx0).
  rewrite (await_completion_start _ _ _ _ _ _ E0).
  match goal with |- context [bind _ _ ?s1] => set (s1' := s1) end.
  destruct (poll_loop_still_running svc name fuel s1') as (s' & E' & Hq' & Ht').
  - unfold terminal_status, s1'. simpl. rewrite lookup_insert_eq, Hx0. reflexivity.
  - exact Hk.
  - exists s'. unfold bind at 1. rewrite E'.
    split; [reflexivity|]. split; [|exact Ht'].
    rewrite Hq'. unfold s1'. simpl. lia.
Qed.

Lemma X13_polling_never_gives_up_witness :
  exists s', await_completion executing_transient_twice_then_failed "p" 2 fresh
               = Timeout s' /\
             queries s' = 3 /\
             terminal_status s' = Some (VStr "Executing").
Proof.
  apply (X13_polling_never_gives_up executing_transient_twice_then_failed "p" 2 fresh).
  - reflexivity.
  - intros i Hi. destruct i as [|[|i]]; [reflexivity | reflexivity | lia].
Defined.
